(** * react-dynamic-help: the HelpItem popup and the HelpProvider placeholder API

    A shallow embedding of [src/components/HelpItem.tsx] (geometry of the
    popup, the render gate, target highlighting, the post-render overflow
    correction) and of the [HelpProvider] component (the API object handed to
    the application before the controller has delivered the real one).

    Conventions of the embedding:
    - a JavaScript [number] holding a pixel measure is an exact rational [Q];
      [===] on numbers is [Qeq_bool], [<] and [>] are [Qltb];
    - a string-keyed JavaScript object used as a dictionary is a [gmap string],
      a [Set] of strings a [gset string];
    - an optional property is an [option]; [undefined] and [null] are [None];
    - render functions mutate the shared target record, so they return the
      new target dictionary next to the element they produce. *)

From Stdlib Require Import QArith Lqa.
From stdpp Require Import gmap strings list.

Local Open Scope string_scope.

(** ** JavaScript values used by the components *)

(** [a < b] on numbers. *)
Definition Qltb (a b : Q) : bool := negb (Qle_bool b a).

(** [String.prototype.includes]. *)
Fixpoint includes (s sub : string) : bool :=
  String.prefix sub s ||
  match s with
  | EmptyString => false
  | String _ rest => includes rest sub
  end.

(** Truthiness of an optional string ([undefined] and [""] are falsy). *)
Definition truthy (s : option string) : bool :=
  match s with
  | Some s => negb (String.eqb s "")
  | None => false
  end.

(** Outcome of running a piece of JavaScript that may throw a [TypeError]
    (calling something that is not a function, reading a property of
    [undefined]). *)
Inductive Outcome (A : Type) : Type :=
  | Returns (a : A)
  | TypeError.
Arguments Returns {A} a.
Arguments TypeError {A}.

Abbreviation TargetId := string (only parsing).
Abbreviation ItemId := string (only parsing).
Abbreviation FlowId := string (only parsing).

(** ** [HelpTypes.Position] *)

(** Modelled from the spec: the [Position] string-literal union of
    [DynamicHelpTypes], which is not among the sources; its twelve members are
    the keys of [defaultAnchors] and the values listed in the spec. *)
Inductive Position : Type :=
  | TopLeft | TopRight | BottomLeft | BottomRight
  | TopCentre | TopCenter | BottomCentre | BottomCenter
  | CenterLeft | CentreLeft | CenterRight | CentreRight.

(** The string a [Position] is at run time. *)
Definition Position_str (p : Position) : string :=
  match p with
  | TopLeft => "top-left"
  | TopRight => "top-right"
  | BottomLeft => "bottom-left"
  | BottomRight => "bottom-right"
  | TopCentre => "top-centre"
  | TopCenter => "top-center"
  | BottomCentre => "bottom-centre"
  | BottomCenter => "bottom-center"
  | CenterLeft => "center-left"
  | CentreLeft => "centre-left"
  | CenterRight => "center-right"
  | CentreRight => "centre-right"
  end.

Definition all_positions : list Position :=
  [TopLeft; TopRight; BottomLeft; BottomRight;
   TopCentre; TopCenter; BottomCentre; BottomCenter;
   CenterLeft; CentreLeft; CenterRight; CentreRight].

(** The object literal [defaultAnchors], key by key. *)
Definition defaultAnchors : gmap string Position :=
  list_to_map
    [("top-left", BottomRight);
     ("top-right", BottomLeft);
     ("bottom-left", TopRight);
     ("bottom-right", TopLeft);
     ("top-centre", BottomLeft);
     ("top-center", BottomLeft);
     ("bottom-centre", TopLeft);
     ("bottom-center", TopLeft);
     ("center-left", BottomRight);
     ("centre-left", BottomRight);
     ("center-right", BottomLeft);
     ("centre-right", BottomLeft)].

(** ** DOM data *)

(** What [getBoundingClientRect] returns, as far as the component reads it. *)
Module DOMRect.
Record t : Type := mk { top : Q; bottom : Q; left : Q; right : Q }.
End DOMRect.

(** [window.innerWidth] and [window.innerHeight]. *)
Module Window.
Record t : Type := mk { innerWidth : Q; innerHeight : Q }.
End Window.

(** A CSS length written [`${n}px`]. *)
Inductive CssLength : Type := Px (n : Q).

(** The target element the application registered: its box and its classes. *)
Module Element.
Record t : Type := mk { rect : DOMRect.t; classList : gset string }.
End Element.

(** Modelled from the spec: a registered target of [DynamicHelpTypes] (not
    among the sources): the element reference and the set of items currently
    highlighting it. *)
Module Target.
Record t : Type := mk { ref : option Element.t; highlighters : gset ItemId }.
End Target.

(** Modelled from the spec: [AppTargetsState] of [DynamicHelpTypes] (not among
    the sources), the dictionary from target id to target that [HelpItem]
    reads as [appTargetsState.targetItems]. *)
Module AppTargetsState.
Record t : Type := mk { targetItems : gmap TargetId Target.t }.
End AppTargetsState.

(** Modelled from the spec: [FlowState] of [DynamicHelpTypes] (not among the
    sources). [HelpItem] reads [id], [visible], [items] and [activeItem]; the
    spec also gives a flow an [enabled] flag. *)
Module FlowState.
Record t : Type := mk {
  id : FlowId;
  enabled : bool;
  visible : bool;
  items : list ItemId;
  activeItem : Z
}.
End FlowState.

(** Modelled from the spec: [ItemState] of [DynamicHelpTypes] (not among the
    sources). [HelpItem] reads [visible]; the spec also gives an item an
    [enabled] flag. *)
Module ItemState.
Record t : Type := mk { enabled : bool; visible : bool }.
End ItemState.

(** Modelled from the spec: [SystemState] of [DynamicHelpTypes] (not among the
    sources): the kill switch and the three dictionaries [getItemState] and
    [HelpItem] read. *)
Module SystemState.
Record t : Type := mk {
  systemEnabled : bool;
  flowMap : gmap ItemId FlowId;
  flows : gmap FlowId FlowState.t;
  items : gmap ItemId ItemState.t
}.
End SystemState.

(** Modelled from the spec: the controller API reached through
    [SystemContext] (declared in [DynamicHelp], not among the sources), as far
    as a render calls it; [enableHelp] and [enableFlow] are only bound to
    click handlers. *)
Module Controller.
Record t : Type := mk { translate : string -> string }.
End Controller.

(** Modelled from the spec: the value of [SystemContext] (declared in
    [DynamicHelp], not among the sources), with the three fields [HelpItem]
    takes from it. *)
Module SystemContext.
Record t : Type := mk {
  appTargetsState : AppTargetsState.t;
  systemState : SystemState.t;
  api : Controller.t
}.
End SystemContext.

(** ** [getItemState] *)

(** A property read [obj[key]] whose key may be [undefined]: the key is then
    the string ["undefined"]. *)
Definition key_of (k : option string) : string := default "undefined" k.

Definition getItemState (item : option string) (helpState : SystemState.t)
  : option FlowState.t * option ItemState.t :=
  match item with
  | Some i =>
      if truthy item then
        let flowId := SystemState.flowMap helpState !! i in
        let flow := SystemState.flows helpState !! key_of flowId in
        (flow, SystemState.items helpState !! i)
      else (None, None)
  | None => (None, None)
  end.

(** ** [HelpItem]: properties and rendered element *)

Module HelpItemProperties.
Record t : Type := mk {
  target : TargetId;
  position : option Position;
  anchor : option Position;
  margin : option string;
  id : option ItemId;
  highlightTarget : option bool;
  debug : option bool;
  myId : option ItemId
}.
End HelpItemProperties.

(** The [div] handed to [ReactDOM.createPortal]: its [id], the [margin] and
    the positional entries of its [style], and the two dismisser labels. *)
Module HelpItemDiv.
Record t : Type := mk {
  id : option string;
  margin : string;
  itemPosition : gmap string Q;
  dontShowLabel : string;
  dismissFlowLabel : string
}.
End HelpItemDiv.

Inductive JSX : Type :=
  | Fragment
  | Portal (div : HelpItemDiv.t).

(** ** The geometry of the popup *)

(** An object literal with two computed keys, [{[k1]: v1, [k2]: v2}]. *)
Definition obj2 (k1 : string) (v1 : Q) (k2 : string) (v2 : Q) : gmap string Q :=
  <[k2 := v2]> (<[k1 := v1]> ∅).

(** [Array.prototype.includes] on an array of strings. *)
Definition array_includes (l : list string) (s : string) : bool :=
  existsb (String.eqb s) l.

Definition yAnchorOf (anchor : Position) : string :=
  if includes (Position_str anchor) "top" then "top" else "bottom".

Definition xAnchorOf (anchor : Position) : string :=
  if includes (Position_str anchor) "left" then "left" else "right".

Definition itemPositionOf (position anchor : Position) (win : Window.t)
    (box : DOMRect.t) : gmap string Q :=
  let vw := Window.innerWidth win in
  let vh := Window.innerHeight win in
  let targetTop := DOMRect.top box in
  let targetBottom := DOMRect.bottom box in
  let targetLeft := DOMRect.left box in
  let targetRight := DOMRect.right box in
  let position := Position_str position in
  let yAnchor := yAnchorOf anchor in
  let xAnchor := xAnchorOf anchor in
  let yAnchorTargetBottom :=
    if String.eqb yAnchor "top" then targetBottom else (vh - targetBottom)%Q in
  let yAnchorTargetTop :=
    if String.eqb yAnchor "bottom" then (vh - targetTop)%Q else targetTop in
  let xAnchorTargetLeft :=
    if String.eqb xAnchor "right" then (vw - targetLeft)%Q else targetLeft in
  let xAnchorTargetRight :=
    if String.eqb xAnchor "left" then targetRight else (vw - targetRight)%Q in
  let yAnchorTargetCentre :=
    if String.eqb yAnchor "top"
    then ((targetTop + targetBottom) / 2)%Q
    else (vh - (targetTop + targetBottom) / 2)%Q in
  let xAnchorTargetCentre :=
    if String.eqb xAnchor "left"
    then ((targetRight + targetLeft) / 2)%Q
    else (vw - (targetRight + targetLeft) / 2)%Q in
  if String.eqb position "bottom-right" then
    obj2 yAnchor yAnchorTargetBottom xAnchor xAnchorTargetRight
  else if String.eqb position "top-left" then
    obj2 yAnchor yAnchorTargetTop xAnchor xAnchorTargetLeft
  else if String.eqb position "bottom-left" then
    obj2 yAnchor yAnchorTargetBottom xAnchor xAnchorTargetLeft
  else if String.eqb position "top-right" then
    obj2 yAnchor yAnchorTargetTop xAnchor xAnchorTargetRight
  else if array_includes ["bottom-centre"; "bottom-center"] position then
    obj2 yAnchor yAnchorTargetBottom xAnchor xAnchorTargetCentre
  else if array_includes ["top-centre"; "top-center"] position then
    obj2 yAnchor yAnchorTargetTop xAnchor xAnchorTargetCentre
  else if array_includes ["centre-left"; "center-left"] position then
    obj2 xAnchor xAnchorTargetLeft yAnchor yAnchorTargetCentre
  else if array_includes ["centre-right"; "center-right"] position then
    obj2 xAnchor xAnchorTargetRight yAnchor yAnchorTargetCentre
  else ∅.

(** The margin used when [props.margin] is falsy. *)
Definition defaultMargin (position : string) : string :=
  if includes position "left" then "0 4px 0 0"
  else if includes position "right" then "0 0 0 4px"
  else if includes position "bottom" then "4px 0 0 0"
  else "0 0 4px 0".

Definition itemMarginOf (margin : option string) (position : Position) : string :=
  match margin with
  | Some m => if truthy margin then m else defaultMargin (Position_str position)
  | None => defaultMargin (Position_str position)
  end.

(** [props.anchor || defaultAnchors[position]]; [None] is [undefined]. *)
Definition anchorOf (anchor : option Position) (position : Position)
  : option Position :=
  match anchor with
  | Some a => Some a
  | None => defaultAnchors !! Position_str position
  end.

(** ** The render function *)

Definition highlightClasses : gset string :=
  {[ "rdh-target"; "rdh-target-highlight" ]}.

Definition zeroRect : DOMRect.t := DOMRect.mk 0 0 0 0.

(** [target?.ref]. *)
Definition targetRef (target : option Target.t) : option Element.t :=
  target ≫= Target.ref.

(** The box read at lines 144-153: the target's, or all zeros. *)
Definition targetBox (target : option Target.t) : DOMRect.t :=
  match targetRef target with
  | Some el => Element.rect el
  | None => zeroRect
  end.

Definition targetDisplayNone (box : DOMRect.t) : bool :=
  Qeq_bool (DOMRect.top box) (DOMRect.bottom box).

(** The condition of the [if] at lines 158-165. *)
Definition shouldRender (props : HelpItemProperties.t) (ctx : SystemContext.t)
  : bool :=
  let target :=
    AppTargetsState.targetItems (SystemContext.appTargetsState ctx)
      !! HelpItemProperties.target props in
  let '(flowState, myState) :=
    getItemState (HelpItemProperties.myId props) (SystemContext.systemState ctx) in
  truthy (HelpItemProperties.myId props)
  && bool_decide (is_Some (targetRef target))
  && negb (targetDisplayNone (targetBox target))
  && from_option FlowState.visible false flowState
  && from_option ItemState.visible false myState
  && SystemState.systemEnabled (SystemContext.systemState ctx).

(** The highlighting done when the item renders (lines 260-264):
    [classList.add] of the two classes, [highlighters.add(props.myId)]. *)
Definition addHighlight (myId : string) (t : Target.t) (el : Element.t)
  : Target.t :=
  Target.mk
    (Some (Element.mk (Element.rect el) (Element.classList el ∪ highlightClasses)))
    (Target.highlighters t ∪ {[ myId ]}).

(** The undoing done when the item does not render (lines 307-315). *)
Definition removeHighlight (myId : string) (t : Target.t) (el : Element.t)
  : Target.t :=
  if bool_decide (myId ∈ Target.highlighters t) then
    let highlighters := Target.highlighters t ∖ {[ myId ]} in
    if bool_decide (size highlighters = 0%nat) then
      Target.mk
        (Some (Element.mk (Element.rect el) (Element.classList el ∖ highlightClasses)))
        highlighters
    else Target.mk (Some el) highlighters
  else t.

(** Writing a mutated target back: the dictionary holds the very object the
    component mutated. *)
Definition setTarget (ctx : SystemContext.t) (tid : string) (t : Target.t)
  : AppTargetsState.t :=
  AppTargetsState.mk
    (<[tid := t]> (AppTargetsState.targetItems (SystemContext.appTargetsState ctx))).

(** [HelpItem]: the element returned and the target dictionary after the
    render. The [onClick] closures and the debug logging do not take part in
    the result and are left out. *)
Definition HelpItem (props : HelpItemProperties.t) (ctx : SystemContext.t)
    (win : Window.t) : Outcome (JSX * AppTargetsState.t) :=
  let position := default BottomRight (HelpItemProperties.position props) in
  let highlightTarget := default true (HelpItemProperties.highlightTarget props) in
  let controller := SystemContext.api ctx in
  let systemState := SystemContext.systemState ctx in
  let tid := HelpItemProperties.target props in
  let target :=
    AppTargetsState.targetItems (SystemContext.appTargetsState ctx) !! tid in
  let '(flowState, myState) :=
    getItemState (HelpItemProperties.myId props) systemState in
  let box := targetBox target in
  if shouldRender props ctx then
    match anchorOf (HelpItemProperties.anchor props) position with
    | None => TypeError
    | Some anchor =>
        let itemPosition := itemPositionOf position anchor win box in
        let itemMargin := itemMarginOf (HelpItemProperties.margin props) position in
        match target, targetRef target, HelpItemProperties.myId props, flowState with
        | Some t, Some el, Some myId, Some flowState =>
            let targets :=
              if highlightTarget
              then setTarget ctx tid (addHighlight myId t el)
              else SystemContext.appTargetsState ctx in
            let dismissFlowLabel :=
              if (FlowState.activeItem flowState =?
                  Z.of_nat (length (FlowState.items flowState)) - 1)%Z
              then Controller.translate controller "OK"
              else Controller.translate controller "Skip" in
            Returns
              (Portal
                 (HelpItemDiv.mk (HelpItemProperties.id props) itemMargin
                    itemPosition
                    (Controller.translate controller "Don't show me these")
                    dismissFlowLabel),
               targets)
        | _, _, _, _ => TypeError
        end
    end
  else
    match target, targetRef target, HelpItemProperties.myId props with
    | Some t, Some el, Some myId =>
        if highlightTarget && truthy (HelpItemProperties.myId props)
        then Returns (Fragment, setTarget ctx tid (removeHighlight myId t el))
        else Returns (Fragment, SystemContext.appTargetsState ctx)
    | _, _, _ => Returns (Fragment, SystemContext.appTargetsState ctx)
    end.

(** ** The post-render overflow correction (the [useEffect] at lines 106-142) *)

(** The mounted popup [thisItem.current]: its measured box and the positional
    entries of its inline style. *)
Module Overlay.
Record t : Type := mk { rect : DOMRect.t; style : gmap string CssLength }.
End Overlay.

(** The body of the effect for a mounted popup. [initialWidth] is
    [initialWidth.current], the [window.innerWidth] read during the render;
    [win] is the window when the effect runs. *)
Definition correctOverflow (initialWidth : Q) (win : Window.t)
    (box : DOMRect.t) (style : gmap string CssLength) : gmap string CssLength :=
  let vw := Window.innerWidth win in
  let vh := Window.innerHeight win in
  let top := DOMRect.top box in
  let bottom := DOMRect.bottom box in
  let left := DOMRect.left box in
  let right := DOMRect.right box in
  let width := (right - left)%Q in
  let height := (bottom - top)%Q in
  let style :=
    if Qltb left 0 then
      let style := <["left" := Px 0]> style in
      let newRight := (vw - width)%Q in
      <["right" := Px newRight]> style
    else if Qltb initialWidth right then
      let style := <["right" := Px 0]> style in
      let newLeft := (initialWidth - width)%Q in
      <["left" := Px newLeft]> style
    else style in
  if Qltb top 0 then
    let style := <["top" := Px 0]> style in
    let newBottom := (vh - height)%Q in
    <["bottom" := Px newBottom]> style
  else style.

(** The effect: nothing happens while [thisItem.current] is [null]. *)
Definition postRenderEffect (initialWidth : Q) (win : Window.t)
    (thisItem : option Overlay.t) : option (gmap string CssLength) :=
  (fun disp => correctOverflow initialWidth win (Overlay.rect disp) (Overlay.style disp))
    <$> thisItem.

(** ** [HelpProvider]: the API object held before the controller is ready *)

(** A value passed where the source says [any]. *)
Inductive JsValue : Type :=
  | JsUndefined
  | JsNull
  | JsString (s : string)
  | JsElement (el : Element.t).

(** What application code calling the API can observe or change: the console
    and the registered targets. *)
Module World.
Record t : Type := mk {
  console : list (list JsValue);
  targets : AppTargetsState.t
}.
End World.

(** A JavaScript function body: it runs in a world and returns or throws. *)
Definition Effect (A : Type) : Type := World.t -> Outcome (A * World.t).

Definition console_log (args : list JsValue) : Effect unit :=
  fun w => Returns (tt, World.mk (World.console w ++ [args]) (World.targets w)).

(** The ref-callback [registerTargetItem] hands out. *)
Definition RefCallback : Type := JsValue -> JsValue -> Effect unit.

(** Modelled from the spec: the [AppApi] interface exported by the package
    index, which is not among the sources. The spec lists four operations; an
    object typed [AppApi] is a JavaScript object, so a property the object
    literal does not define reads as [undefined] ([None]). *)
Module AppApi.
Record t : Type := mk {
  registerTargetItem : option (string -> RefCallback);
  enableHelp : option (bool -> Effect unit);
  enableFlow : option (string -> bool -> Effect unit);
  translate : option (string -> string)
}.
End AppApi.

(** The initialiser of [useState<AppApi>] (lines 51-63): an object literal
    with the single property [registerTargetItem]. *)
Definition placeholderApi : AppApi.t :=
  AppApi.mk
    (Some (fun _ => fun ir r =>
       console_log
         [JsString "Info: registerTargtItrm called before initialised:"; ir; r]))
    None None None.

(** The state cell [controllerApi] of [HelpProvider]; [None] would be [null]. *)
Module HelpProvider.
Record t : Type := mk { controllerApi : option AppApi.t }.

(** The state on the first render. *)
Definition initial : t := mk (Some placeholderApi).

(** [provideControllerApi]: log, then [setControllerAPI(apiObject)]. *)
Definition provideControllerApi (apiObject : AppApi.t) (st : t) : t :=
  mk (Some apiObject).

(** The value given to [ApiProvider] on a render. *)
Definition providedValue (st : t) : option AppApi.t := controllerApi st.
End HelpProvider.

(** Calling [api.m(...)]: a [TypeError] when [api] is [null] or [m] is not a
    function. *)
Definition call_registerTargetItem (api : option AppApi.t) (targetId : string)
  : Outcome RefCallback :=
  match api ≫= AppApi.registerTargetItem with
  | Some f => Returns (f targetId)
  | None => TypeError
  end.

Definition call_enableHelp (api : option AppApi.t) (enabled : bool) : Effect unit :=
  fun w =>
    match api ≫= AppApi.enableHelp with
    | Some f => f enabled w
    | None => TypeError
    end.

Definition call_enableFlow (api : option AppApi.t) (flowId : string)
    (enabled : bool) : Effect unit :=
  fun w =>
    match api ≫= AppApi.enableFlow with
    | Some f => f flowId enabled w
    | None => TypeError
    end.

Definition call_translate (api : option AppApi.t) (key : string) : Outcome string :=
  match api ≫= AppApi.translate with
  | Some f => Returns (f key)
  | None => TypeError
  end.

(** ** What the spec calls effective visibility *)

(** Whether [HelpItem] returned its popup rather than the empty fragment. *)
Definition renders (props : HelpItemProperties.t) (ctx : SystemContext.t)
    (win : Window.t) : bool :=
  match HelpItem props ctx win with
  | Returns (Portal _, _) => true
  | _ => false
  end.

(** "The item is the flow's active item": [flow.items[flow.activeItem]] is the
    item. *)
Definition isActiveItemOfFlow (flow : FlowState.t) (item : string) : bool :=
  (0 <=? FlowState.activeItem flow)%Z
  && bool_decide
       (FlowState.items flow !! Z.to_nat (FlowState.activeItem flow) = Some item).

(** The six flags of the spec's visibility contract, read off the state the
    component is given. *)
Module Flags.
Record t : Type := mk {
  systemEnabled : bool;
  flowEnabled : bool;
  flowVisible : bool;
  itemEnabled : bool;
  itemVisible : bool;
  isActive : bool
}.
End Flags.

Definition flagsOf (props : HelpItemProperties.t) (ctx : SystemContext.t)
  : Flags.t :=
  let '(flowState, myState) :=
    getItemState (HelpItemProperties.myId props) (SystemContext.systemState ctx) in
  Flags.mk
    (SystemState.systemEnabled (SystemContext.systemState ctx))
    (from_option FlowState.enabled false flowState)
    (from_option FlowState.visible false flowState)
    (from_option ItemState.enabled false myState)
    (from_option ItemState.visible false myState)
    (match flowState, HelpItemProperties.myId props with
     | Some flow, Some item => isActiveItemOfFlow flow item
     | _, _ => false
     end).

(** The spec's [targetExistsAndMeasurable]. *)
Definition targetExistsAndMeasurable (props : HelpItemProperties.t)
    (ctx : SystemContext.t) : bool :=
  let target :=
    AppTargetsState.targetItems (SystemContext.appTargetsState ctx)
      !! HelpItemProperties.target props in
  bool_decide (is_Some (targetRef target))
  && negb (targetDisplayNone (targetBox target)).

(** The spec's [effectiveVisible]: the conjunction of the six flags and of
    the target being there and measurable. *)
Definition spec_effectiveVisible (props : HelpItemProperties.t)
    (ctx : SystemContext.t) : bool :=
  let f := flagsOf props ctx in
  Flags.flowEnabled f && Flags.flowVisible f && Flags.itemEnabled f
  && Flags.itemVisible f && Flags.systemEnabled f
  && targetExistsAndMeasurable props ctx && Flags.isActive f.

(** ** The scenario of the spec: flow [F] = [[I1; I2]], target [T] *)

Module Scenario.
Definition box : DOMRect.t := DOMRect.mk 100 120 50 150.
Definition win : Window.t := Window.mk 800 600.
Definition T : Target.t := Target.mk (Some (Element.mk box ∅)) ∅.
Definition F : FlowState.t := FlowState.mk "F" true true ["I1"; "I2"] 0.
Definition api : Controller.t := Controller.mk (fun key => key).

Definition systemState (i1 i2 : ItemState.t) : SystemState.t :=
  SystemState.mk true
    {[ "I1" := "F"; "I2" := "F" ]}
    {[ "F" := F ]}
    {[ "I1" := i1; "I2" := i2 ]}.

Definition shown : ItemState.t := ItemState.mk true true.
Definition hidden : ItemState.t := ItemState.mk true false.

Definition ctx (targets : AppTargetsState.t) (i1 i2 : ItemState.t)
  : SystemContext.t :=
  SystemContext.mk targets (systemState i1 i2) api.

Definition targets0 : AppTargetsState.t := AppTargetsState.mk {[ "T" := T ]}.

Definition item (myId : string) (position : option Position) : HelpItemProperties.t :=
  HelpItemProperties.mk "T" position None None None None None (Some myId).

Definition I1 : HelpItemProperties.t := item "I1" (Some BottomRight).
Definition I2 : HelpItemProperties.t := item "I2" (Some BottomRight).
End Scenario.

(** ** Definitions used to state the properties *)

(** The table of lines 29-44 read as a function, entry by entry. *)
Definition fixedAnchor (position : Position) : Position :=
  match position with
  | TopLeft => BottomRight
  | TopRight => BottomLeft
  | BottomLeft => TopRight
  | BottomRight => TopLeft
  | TopCentre | TopCenter => BottomLeft
  | BottomCentre | BottomCenter => TopLeft
  | CenterLeft | CentreLeft => BottomRight
  | CenterRight | CentreRight => BottomLeft
  end.

(** [props] with its [anchor] property replaced. *)
Definition withAnchor (anchor : option Position) (props : HelpItemProperties.t)
  : HelpItemProperties.t :=
  HelpItemProperties.mk
    (HelpItemProperties.target props) (HelpItemProperties.position props)
    anchor
    (HelpItemProperties.margin props) (HelpItemProperties.id props)
    (HelpItemProperties.highlightTarget props) (HelpItemProperties.debug props)
    (HelpItemProperties.myId props).

(** The corner a centre anchor is treated as: a missing vertical part reads
    as bottom, a missing horizontal part as right. *)
Definition collapse (anchor : Position) : Position :=
  match anchor with
  | TopCentre | TopCenter => TopRight
  | BottomCentre | BottomCenter => BottomRight
  | CenterLeft | CentreLeft => BottomLeft
  | CenterRight | CentreRight => BottomRight
  | corner => corner
  end.

(** A world with a silent console and the scenario's target registered. *)
Definition emptyWorld : World.t := World.mk [] Scenario.targets0.

(** The first [if]/[else if] of the pass, which writes [left] and [right]. *)
Definition correctHorizontal (initialWidth : Q) (win : Window.t)
    (box : DOMRect.t) (style : gmap string CssLength) : gmap string CssLength :=
  let width := (DOMRect.right box - DOMRect.left box)%Q in
  if Qltb (DOMRect.left box) 0 then
    <["right" := Px (Window.innerWidth win - width)]> (<["left" := Px 0]> style)
  else if Qltb initialWidth (DOMRect.right box) then
    <["left" := Px (initialWidth - width)]> (<["right" := Px 0]> style)
  else style.

(** The second [if] of the pass, which writes [top] and [bottom]. *)
Definition correctVertical (win : Window.t) (box : DOMRect.t)
    (style : gmap string CssLength) : gmap string CssLength :=
  let height := (DOMRect.bottom box - DOMRect.top box)%Q in
  if Qltb (DOMRect.top box) 0 then
    <["bottom" := Px (Window.innerHeight win - height)]> (<["top" := Px 0]> style)
  else style.

(** The four components of the popup's [margin]. *)
Module Margins.
Record t : Type := mk { top : Q; right : Q; bottom : Q; left : Q }.
End Margins.

(** A box measured for a popup whose inline style is [style]: every edge the
    style pins lies where the style puts it, inset by the margin on that
    side ([left] and [top] from the window's origin, [right] and [bottom]
    from its far edges). *)
Definition placedBy (win : Window.t) (m : Margins.t)
    (style : gmap string CssLength) (box : DOMRect.t) : Prop :=
  (forall l, style !! "left" = Some (Px l) ->
     (DOMRect.left box == l + Margins.left m)%Q)
  /\ (forall r, style !! "right" = Some (Px r) ->
        (DOMRect.right box == Window.innerWidth win - r - Margins.right m)%Q)
  /\ (forall t, style !! "top" = Some (Px t) ->
        (DOMRect.top box == t + Margins.top m)%Q)
  /\ (forall b, style !! "bottom" = Some (Px b) ->
        (DOMRect.bottom box == Window.innerHeight win - b - Margins.bottom m)%Q).

(** The box measured after one pass over [box] and [style]: it reflects the
    corrected style, and along an axis the pass left alone it is the box
    measured before. *)
Definition remeasured (initialWidth : Q) (win : Window.t) (m : Margins.t)
    (box : DOMRect.t) (style : gmap string CssLength) (box' : DOMRect.t) : Prop :=
  placedBy win m (correctOverflow initialWidth win box style) box'
  /\ (Qltb (DOMRect.left box) 0 = false ->
      Qltb initialWidth (DOMRect.right box) = false ->
      (DOMRect.left box' == DOMRect.left box)%Q
      /\ (DOMRect.right box' == DOMRect.right box)%Q)
  /\ (Qltb (DOMRect.top box) 0 = false ->
      (DOMRect.top box' == DOMRect.top box)%Q
      /\ (DOMRect.bottom box' == DOMRect.bottom box)%Q).

(** What is seen of a registered target with an element: the element's box,
    its classes, and the markers. *)
Definition targetView (ats : AppTargetsState.t) (tid : string)
  : option (DOMRect.t * gset string * gset string) :=
  t ← AppTargetsState.targetItems ats !! tid;
  el ← Target.ref t;
  Some (Element.rect el, Element.classList el, Target.highlighters t).

(** ** The click handlers of the popup (lines 86-98) *)

(** A call a handler makes on the controller API. The controller itself is
    not part of the component; a handler is what it asks the controller to
    do. *)
Inductive ControllerCall : Type :=
  | CallEnableHelp (enabled : bool)
  | CallEnableFlow (flow : FlowId) (enabled : bool).

(** What running a handler does: the calls on the controller, in order, and
    the lines given to [console.warn]. *)
Module Click.
Record t : Type := mk { calls : list ControllerCall; warnings : list string }.
End Click.

(** [turnOffHelpSystem], bound to the "Don't show me these" span. *)
Definition turnOffHelpSystem : Click.t :=
  Click.mk [CallEnableHelp false] [].

(** [dismissFlow], bound to the Skip/OK span; [flowState] is the flow state
    the render that created the closure got from [getItemState]. *)
Definition dismissFlow (flowState : option FlowState.t) : Click.t :=
  match flowState with
  | Some flowState => Click.mk [CallEnableFlow (FlowState.id flowState) false] []
  | None =>
      Click.mk []
        ["Warning: HelpItem 'dismissFlow' called with undefined flow state.  That's unexpected!"]
  end.

(** The [dismissFlow] closure a render of [HelpItem] creates. *)
Definition dismissFlowOf (props : HelpItemProperties.t) (ctx : SystemContext.t)
  : Click.t :=
  dismissFlow
    (fst (getItemState (HelpItemProperties.myId props)
            (SystemContext.systemState ctx))).

(** The label of the Skip/OK span (lines 266-270). *)
Definition dismissFlowLabelOf (controller : Controller.t)
    (flowState : FlowState.t) : string :=
  if (FlowState.activeItem flowState =?
      Z.of_nat (length (FlowState.items flowState)) - 1)%Z
  then Controller.translate controller "OK"
  else Controller.translate controller "Skip".

(** ** Renders in sequence *)

(** The context of a later render: the same system state and API, and the
    target dictionary as an earlier render left it. *)
Definition withTargets (ats : AppTargetsState.t) (ctx : SystemContext.t)
  : SystemContext.t :=
  SystemContext.mk ats (SystemContext.systemState ctx) (SystemContext.api ctx).

(** The target dictionary after a render with a closed gate (lines 305-316). *)
Definition hiddenTargets (props : HelpItemProperties.t) (ctx : SystemContext.t)
  : AppTargetsState.t :=
  let tid := HelpItemProperties.target props in
  match
    AppTargetsState.targetItems (SystemContext.appTargetsState ctx) !! tid,
    HelpItemProperties.myId props
  with
  | Some t, Some i =>
      match Target.ref t with
      | Some el =>
          if default true (HelpItemProperties.highlightTarget props)
             && truthy (Some i)
          then setTarget ctx tid (removeHighlight i t el)
          else SystemContext.appTargetsState ctx
      | None => SystemContext.appTargetsState ctx
      end
  | _, _ => SystemContext.appTargetsState ctx
  end.

(** [props] with its [position] property replaced. *)
Definition withPosition (position : option Position)
    (props : HelpItemProperties.t) : HelpItemProperties.t :=
  HelpItemProperties.mk
    (HelpItemProperties.target props) position
    (HelpItemProperties.anchor props)
    (HelpItemProperties.margin props) (HelpItemProperties.id props)
    (HelpItemProperties.highlightTarget props) (HelpItemProperties.debug props)
    (HelpItemProperties.myId props).

(** The other spelling of a position name ([centre] for [center] and back);
    a corner has one spelling. *)
Definition respell (position : Position) : Position :=
  match position with
  | TopCentre => TopCenter
  | TopCenter => TopCentre
  | BottomCentre => BottomCenter
  | BottomCenter => BottomCentre
  | CenterLeft => CentreLeft
  | CentreLeft => CenterLeft
  | CenterRight => CentreRight
  | CentreRight => CenterRight
  | corner => corner
  end.

(** ** Reading a placement back in window coordinates *)





(** ** [HelpProvider] over its life *)

(** The state of [HelpProvider] after the controller has delivered the API
    objects of [deliveries], oldest first. *)
Definition afterDeliveries (deliveries : list AppApi.t) : HelpProvider.t :=
  foldl (fun st apiObject => HelpProvider.provideControllerApi apiObject st)
    HelpProvider.initial deliveries.

(** [const [app, ...helpFlows] = React.Children.toArray(props.children)]:
    the child rendered under [ApiProvider] ([undefined] when there is none)
    and the children handed to [HelpController]. *)
Definition splitChildren {A : Type} (children : list A) : option A * list A :=
  match children with
  | [] => (None, [])
  | app :: helpFlows => (Some app, helpFlows)
  end.

(** An argument of a [console.log] call of [HelpProvider]. *)
Inductive ProviderLogArg : Type :=
  | LogText (s : string)
  | LogApi (api : option AppApi.t).

(** What a render of [HelpProvider] does (lines 74-82): the line it logs,
    the value and the child of [ApiProvider], and the children of
    [HelpController]. *)
Module ProviderTree.
Record t (A : Type) : Type := mk {
  logged : list ProviderLogArg;
  apiProviderValue : option AppApi.t;
  apiProviderChild : option A;
  helpControllerChildren : list A
}.
Arguments mk {A} _ _ _ _.
Arguments logged {A} _.
Arguments apiProviderValue {A} _.
Arguments apiProviderChild {A} _.
Arguments helpControllerChildren {A} _.
End ProviderTree.

Definition renderHelpProvider {A : Type} (children : list A)
    (st : HelpProvider.t) : ProviderTree.t A :=
  let '(app, helpFlows) := splitChildren children in
  let controllerApi := HelpProvider.controllerApi st in
  ProviderTree.mk
    [LogText "Help provider render:"; LogApi controllerApi]
    controllerApi app helpFlows.

(** Registrations made one after the other through the API object [api]:
    for each [(targetId, ir, r)] in turn, [api.registerTargetItem(targetId)]
    is called and the callback it returns is called with [ir] and [r]. *)
Fixpoint registerAll (api : option AppApi.t)
    (registrations : list (string * JsValue * JsValue)) : Effect unit :=
  fun w =>
    match registrations with
    | [] => Returns (tt, w)
    | (targetId, ir, r) :: rest =>
        match call_registerTargetItem api targetId with
        | Returns callback =>
            match callback ir r w with
            | Returns (_, w') => registerAll api rest w'
            | TypeError => TypeError
            end
        | TypeError => TypeError
        end
    end.

(** ** Renders one after the other *)



(** * Properties *)

(** ** Strings and the anchor table *)

Lemma anchorOf_total (anchor : option Position) (position : Position) :
  is_Some (anchorOf anchor position).
Proof.
  destruct anchor as [a|]; [by eexists|].
  destruct position; by eexists.
Qed.

Lemma truthy_Some (s : string) : truthy (Some s) = true <-> s <> "".
Proof.
  unfold truthy. destruct (String.eqb_spec s ""); simpl; split; congruence.
Qed.

(** ** The render gate *)

Lemma shouldRender_true (props : HelpItemProperties.t) (ctx : SystemContext.t) :
  shouldRender props ctx = true <->
  exists i t el fs it,
    HelpItemProperties.myId props = Some i /\ i <> "" /\
    AppTargetsState.targetItems (SystemContext.appTargetsState ctx)
      !! HelpItemProperties.target props = Some t /\
    Target.ref t = Some el /\
    ~ (DOMRect.top (Element.rect el) == DOMRect.bottom (Element.rect el))%Q /\
    getItemState (Some i) (SystemContext.systemState ctx) = (Some fs, Some it) /\
    FlowState.visible fs = true /\
    ItemState.visible it = true /\
    SystemState.systemEnabled (SystemContext.systemState ctx) = true.
Proof.
  unfold shouldRender, targetDisplayNone, targetBox, targetRef.
  destruct (HelpItemProperties.myId props) as [i|] eqn:Hid.
  2:{ simpl. split; [discriminate|]. by intros (?&?&?&?&?&?&_). }
  destruct (getItemState (Some i) _) as [flowState myState] eqn:Hst.
  destruct (_ !! HelpItemProperties.target props) as [t|] eqn:Ht;
    cbn -[getItemState truthy].
  2:{ rewrite andb_false_r. cbn.
      split; [discriminate|]. by intros (?&?&?&?&?&?&?&?&_). }
  destruct (Target.ref t) as [el|] eqn:Hel; cbn -[getItemState truthy].
  2:{ rewrite andb_false_r. cbn.
      split; [discriminate|]. intros (?&?&?&?&?&?&?&?&?&_). congruence. }
  rewrite andb_true_r.
  split.
  - intros H.
    repeat (apply andb_prop in H; destruct H as [H ?]).
    destruct flowState as [fs|]; [|discriminate].
    destruct myState as [it|]; [|discriminate].
    exists i, t, el, fs, it. simpl in *.
    repeat split; try done.
    + by apply truthy_Some.
    + intros Heq. apply Qeq_bool_iff in Heq.
      destruct (Qeq_bool _ _); done.
  - intros (i'&t'&el'&fs&it&Hi&Hne&Ht'&Hel'&Hbox&Hst'&Hfv&Hiv&Hsys).
    simplify_eq. rewrite Hst in Hst'. simplify_eq. cbn -[truthy].
    rewrite Hfv, Hiv, Hsys.
    apply truthy_Some in Hne. rewrite Hne.
    destruct (Qeq_bool _ _) eqn:Hq; [|done].
    apply Qeq_bool_iff in Hq. done.
Qed.

(** When the gate is open [HelpItem] returns the popup, placed by
    [itemPositionOf] against the target's box. *)
Lemma HelpItem_shown (props : HelpItemProperties.t) (ctx : SystemContext.t)
    (win : Window.t) :
  shouldRender props ctx = true ->
  exists i t el anchor label targets,
    HelpItemProperties.myId props = Some i /\
    AppTargetsState.targetItems (SystemContext.appTargetsState ctx)
      !! HelpItemProperties.target props = Some t /\
    Target.ref t = Some el /\
    anchorOf (HelpItemProperties.anchor props)
      (default BottomRight (HelpItemProperties.position props)) = Some anchor /\
    targets =
      (if default true (HelpItemProperties.highlightTarget props)
       then setTarget ctx (HelpItemProperties.target props) (addHighlight i t el)
       else SystemContext.appTargetsState ctx) /\
    HelpItem props ctx win =
      Returns
        (Portal
           (HelpItemDiv.mk (HelpItemProperties.id props)
              (itemMarginOf (HelpItemProperties.margin props)
                 (default BottomRight (HelpItemProperties.position props)))
              (itemPositionOf
                 (default BottomRight (HelpItemProperties.position props))
                 anchor win (Element.rect el))
              (Controller.translate (SystemContext.api ctx) "Don't show me these")
              label),
         targets).
Proof.
  intros Hgate.
  destruct (proj1 (shouldRender_true props ctx) Hgate)
    as (i&t&el&fs&it&Hi&_&Ht&Hel&_&Hst&_).
  destruct (anchorOf_total (HelpItemProperties.anchor props)
              (default BottomRight (HelpItemProperties.position props)))
    as [anchor Ha].
  unfold HelpItem. rewrite Hgate, Hi, Hst, Ha, Ht.
  unfold targetBox, targetRef. cbn -[itemPositionOf itemMarginOf]. rewrite Hel.
  by repeat eexists.
Qed.

(** When the gate is closed [HelpItem] returns the empty fragment. *)
Lemma HelpItem_hidden (props : HelpItemProperties.t) (ctx : SystemContext.t)
    (win : Window.t) :
  shouldRender props ctx = false ->
  exists targets, HelpItem props ctx win = Returns (Fragment, targets).
Proof.
  intros Hgate. unfold HelpItem. rewrite Hgate.
  destruct (getItemState _ _) as [flowState myState].
  repeat case_match; by eexists.
Qed.

Lemma renders_shouldRender (props : HelpItemProperties.t)
    (ctx : SystemContext.t) (win : Window.t) :
  renders props ctx win = shouldRender props ctx.
Proof.
  unfold renders. destruct (shouldRender props ctx) eqn:Hgate.
  - destruct (HelpItem_shown props ctx win Hgate)
      as (?&?&?&?&?&?&_&_&_&_&_&->). done.
  - destruct (HelpItem_hidden props ctx win Hgate) as [? ->]. done.
Qed.

(** ** C1: effective visibility *)

(** C1, as the code has it: [HelpItem] returns its popup exactly when the
    item id is set, the target is registered with an element whose box has
    [top] different from [bottom], the flow's and the item's [visible] flags
    are set and [systemEnabled] is set. Neither [enabled] flag nor the
    flow's active index takes part. *)
Theorem HelpItem_renders_iff (props : HelpItemProperties.t)
    (ctx : SystemContext.t) (win : Window.t) :
  renders props ctx win = true <->
  exists i t el fs it,
    HelpItemProperties.myId props = Some i /\ i <> "" /\
    AppTargetsState.targetItems (SystemContext.appTargetsState ctx)
      !! HelpItemProperties.target props = Some t /\
    Target.ref t = Some el /\
    ~ (DOMRect.top (Element.rect el) == DOMRect.bottom (Element.rect el))%Q /\
    getItemState (Some i) (SystemContext.systemState ctx) = (Some fs, Some it) /\
    FlowState.visible fs = true /\
    ItemState.visible it = true /\
    SystemState.systemEnabled (SystemContext.systemState ctx) = true.
Proof.
  rewrite renders_shouldRender. apply shouldRender_true.
Qed.

(** C1 fails as stated: in the scenario, with [I1] the active item of [F],
    item [I2] has five of the six flags set and is not the active item, its
    target is there and measurable, and [HelpItem] still returns its popup,
    while the spec's conjunction is false. *)
Lemma HelpItem_ignores_active_item :
  let ctx := Scenario.ctx Scenario.targets0 Scenario.shown Scenario.shown in
  flagsOf Scenario.I2 ctx = Flags.mk true true true true true false
  /\ targetExistsAndMeasurable Scenario.I2 ctx = true
  /\ spec_effectiveVisible Scenario.I2 ctx = false
  /\ renders Scenario.I2 ctx Scenario.win = true.
Proof. vm_compute. done. Qed.

(** ** C4: a target of height zero *)

(** C4: when the registered target's box has [top] equal to [bottom],
    [HelpItem] returns the empty fragment, whatever the flags of the system,
    the flow and the item are. *)
Theorem zero_height_target_renders_nothing (props : HelpItemProperties.t)
    (ctx : SystemContext.t) (win : Window.t) (t : Target.t) (el : Element.t) :
  AppTargetsState.targetItems (SystemContext.appTargetsState ctx)
    !! HelpItemProperties.target props = Some t ->
  Target.ref t = Some el ->
  (DOMRect.top (Element.rect el) == DOMRect.bottom (Element.rect el))%Q ->
  exists targets, HelpItem props ctx win = Returns (Fragment, targets).
Proof.
  intros Ht Hel Hflat. apply HelpItem_hidden.
  destruct (shouldRender props ctx) eqn:Hgate; [|done].
  apply shouldRender_true in Hgate
    as (?&t'&el'&?&?&_&_&Ht'&Hel'&Hbox&_).
  simplify_eq. done.
Qed.

Lemma zero_height_target_renders_nothing_witness :
  let flat := Target.mk (Some (Element.mk (DOMRect.mk 100 100 50 150) ∅)) ∅ in
  let ctx :=
    Scenario.ctx (AppTargetsState.mk {[ "T" := flat ]})
      Scenario.shown Scenario.shown in
  flagsOf Scenario.I1 ctx = Flags.mk true true true true true true
  /\ exists targets,
       HelpItem Scenario.I1 ctx Scenario.win = Returns (Fragment, targets).
Proof.
  split; [reflexivity|].
  eapply zero_height_target_renders_nothing; reflexivity.
Defined.

(** ** C2: the scenario's placement *)

(** C2, as the code has it: for position ["bottom-right"] with no anchor and
    no margin, a target box [{top:100, bottom:120, left:50, right:150}] and
    an 800x600 viewport, the popup is placed with [{top: 120, left: 150}]
    (its top-left corner on the target's bottom-right corner) and margin
    ["0 0 0 4px"]. *)
Theorem bottom_right_scenario_style (props : HelpItemProperties.t)
    (ctx : SystemContext.t) (t : Target.t) (el : Element.t) :
  default BottomRight (HelpItemProperties.position props) = BottomRight ->
  HelpItemProperties.anchor props = None ->
  HelpItemProperties.margin props = None ->
  AppTargetsState.targetItems (SystemContext.appTargetsState ctx)
    !! HelpItemProperties.target props = Some t ->
  Target.ref t = Some el ->
  Element.rect el = Scenario.box ->
  renders props ctx Scenario.win = true ->
  exists div targets,
    HelpItem props ctx Scenario.win = Returns (Portal div, targets)
    /\ HelpItemDiv.itemPosition div = {[ "top" := 120%Q; "left" := 150%Q ]}
    /\ HelpItemDiv.margin div = "0 0 0 4px".
Proof.
  intros Hpos Hanchor Hmargin Ht Hel Hbox Hr.
  rewrite renders_shouldRender in Hr.
  destruct (HelpItem_shown props ctx Scenario.win Hr)
    as (i&t'&el'&anchor&label&targets&_&Ht'&Hel'&Ha&_&->).
  simplify_eq.
  rewrite Hpos, Hanchor in Ha. vm_compute in Ha. simplify_eq.
  do 2 eexists. split; [done|].
  rewrite Hpos, Hmargin, Hbox. split; [|done].
  apply map_eq. intros k. vm_compute. done.
Qed.

Lemma bottom_right_scenario_style_witness :
  let ctx := Scenario.ctx Scenario.targets0 Scenario.shown Scenario.hidden in
  renders Scenario.I1 ctx Scenario.win = true
  /\ exists div targets,
       HelpItem Scenario.I1 ctx Scenario.win = Returns (Portal div, targets)
       /\ HelpItemDiv.itemPosition div = {[ "top" := 120%Q; "left" := 150%Q ]}
       /\ HelpItemDiv.margin div = "0 0 0 4px".
Proof.
  split; [reflexivity|].
  eapply bottom_right_scenario_style; reflexivity.
Defined.

(** C2 fails as stated: in the scenario [HelpItem] does not place [I1] with
    [{bottom: 480, right: 650}]. *)
Lemma scenario_style_is_not_bottom_right :
  ~ exists div targets,
      HelpItem Scenario.I1
        (Scenario.ctx Scenario.targets0 Scenario.shown Scenario.hidden)
        Scenario.win = Returns (Portal div, targets)
      /\ HelpItemDiv.itemPosition div = {[ "bottom" := 480%Q; "right" := 650%Q ]}
      /\ HelpItemDiv.margin div = "0 0 0 4px".
Proof.
  intros (div & targets & Hrun & Hpos & _).
  vm_compute in Hrun. injection Hrun as <- _.
  apply (f_equal (fun m : gmap string Q => m !! "bottom")) in Hpos.
  vm_compute in Hpos. discriminate.
Qed.

(** ** C3: the default anchor *)

Lemma shouldRender_withAnchor (anchor : option Position)
    (props : HelpItemProperties.t) (ctx : SystemContext.t) :
  shouldRender (withAnchor anchor props) ctx = shouldRender props ctx.
Proof. reflexivity. Qed.

(** [HelpItem] reads [props.anchor] through [anchorOf] only. *)
Lemma HelpItem_anchorOf (a b : option Position) (props : HelpItemProperties.t)
    (ctx : SystemContext.t) (win : Window.t) :
  let position := default BottomRight (HelpItemProperties.position props) in
  (forall x y, anchorOf a position = Some x -> anchorOf b position = Some y ->
     yAnchorOf x = yAnchorOf y /\ xAnchorOf x = xAnchorOf y) ->
  HelpItem (withAnchor a props) ctx win = HelpItem (withAnchor b props) ctx win.
Proof.
  intros position Hsame. unfold HelpItem.
  rewrite !shouldRender_withAnchor. cbn -[shouldRender itemPositionOf anchorOf].
  destruct (getItemState _ _) as [flowState myState].
  destruct (shouldRender props ctx); [|done].
  fold position.
  destruct (anchorOf_total a position) as [x Hx].
  destruct (anchorOf_total b position) as [y Hy].
  rewrite Hx, Hy. destruct (Hsame x y Hx Hy) as [Hy' Hx'].
  unfold itemPositionOf. rewrite Hy', Hx'. done.
Qed.

(** C3: for each of the twelve positions, an item given no anchor is placed
    with the table's anchor for its position: the lookup yields the entry
    ([top-left] gives [bottom-right], ..., the centre positions give the
    corner listed for them), [HelpItem] computes what it computes when that
    anchor is passed explicitly, and the entry lies opposite the position on
    every side the position names. *)
Theorem default_anchor_is_table_entry (position : Position) :
  position ∈ all_positions
  /\ anchorOf None position = Some (fixedAnchor position)
  /\ (forall props ctx win,
        default BottomRight (HelpItemProperties.position props) = position ->
        HelpItem (withAnchor None props) ctx win =
        HelpItem (withAnchor (Some (fixedAnchor position)) props) ctx win)
  /\ (includes (Position_str position) "top" = true ->
        yAnchorOf (fixedAnchor position) = "bottom")
  /\ (includes (Position_str position) "bottom" = true ->
        yAnchorOf (fixedAnchor position) = "top")
  /\ (includes (Position_str position) "left" = true ->
        xAnchorOf (fixedAnchor position) = "right")
  /\ (includes (Position_str position) "right" = true ->
        xAnchorOf (fixedAnchor position) = "left").
Proof.
  assert (Htable : anchorOf None position = Some (fixedAnchor position))
    by (by destruct position).
  split; [apply list_elem_of_In; destruct position; simpl; tauto|].
  split; [done|]. split.
  - intros props ctx win Hpos. apply HelpItem_anchorOf.
    rewrite Hpos, Htable. cbn. intros x y [= <-] [= <-]. done.
  - destruct position; vm_compute; repeat split; congruence.
Qed.

(** ** C9: the default margin *)

(** C9: a rendered item given no margin gets the margin picked by testing
    the position name for ["left"], then ["right"], then ["bottom"], in that
    order; position by position this is the table below, in which every
    compound name with a horizontal part takes the horizontal branch. *)
Theorem default_margin_precedence (props : HelpItemProperties.t)
    (ctx : SystemContext.t) (win : Window.t) (div : HelpItemDiv.t)
    (targets : AppTargetsState.t) :
  truthy (HelpItemProperties.margin props) = false ->
  HelpItem props ctx win = Returns (Portal div, targets) ->
  let position := default BottomRight (HelpItemProperties.position props) in
  let name := Position_str position in
  HelpItemDiv.margin div =
    (if includes name "left" then "0 4px 0 0"
     else if includes name "right" then "0 0 0 4px"
     else if includes name "bottom" then "4px 0 0 0"
     else "0 0 4px 0")
  /\ HelpItemDiv.margin div =
       match position with
       | TopLeft | BottomLeft | CenterLeft | CentreLeft => "0 4px 0 0"
       | TopRight | BottomRight | CenterRight | CentreRight => "0 0 0 4px"
       | BottomCentre | BottomCenter => "4px 0 0 0"
       | TopCentre | TopCenter => "0 0 4px 0"
       end.
Proof.
  intros Hmargin Hrun position name.
  assert (Hgate : shouldRender props ctx = true).
  { rewrite <- (renders_shouldRender props ctx win).
    unfold renders. by rewrite Hrun. }
  destruct (HelpItem_shown props ctx win Hgate)
    as (?&?&?&?&?&?&_&_&_&_&_&Hrun').
  rewrite Hrun' in Hrun. injection Hrun as <- _.
  cbn -[includes Position_str]. fold position.
  assert (Hm : itemMarginOf (HelpItemProperties.margin props) position
               = defaultMargin name).
  { unfold itemMarginOf.
    destruct (HelpItemProperties.margin props); [by rewrite Hmargin|done]. }
  rewrite Hm. split; [done|].
  subst name. by destruct position.
Qed.

Lemma default_margin_precedence_witness :
  exists div targets,
    HelpItem Scenario.I1
      (Scenario.ctx Scenario.targets0 Scenario.shown Scenario.hidden)
      Scenario.win = Returns (Portal div, targets)
    /\ HelpItemDiv.margin div = "0 0 0 4px".
Proof.
  destruct (default_margin_precedence Scenario.I1
              (Scenario.ctx Scenario.targets0 Scenario.shown Scenario.hidden)
              Scenario.win _ _ eq_refl eq_refl) as [_ Hmargin].
  eexists _, _. split; [reflexivity|exact Hmargin].
Defined.

(** ** C10: anchors collapse onto the four corners *)

(** C10: the vertical part of an anchor is ["top"] exactly when its name
    contains ["top"] and ["bottom"] otherwise, the horizontal part ["left"]
    exactly when the name contains ["left"] and ["right"] otherwise; so an
    explicit centre anchor gives the very result of its collapse onto a
    corner ([top-centre] that of [top-right], [centre-left] that of
    [bottom-left]), for every position, target, state and viewport. *)
Theorem anchor_collapses_to_corner (anchor : Position) :
  (yAnchorOf anchor = "top" <-> includes (Position_str anchor) "top" = true)
  /\ (yAnchorOf anchor = "bottom" <-> includes (Position_str anchor) "top" = false)
  /\ (xAnchorOf anchor = "left" <-> includes (Position_str anchor) "left" = true)
  /\ (xAnchorOf anchor = "right" <-> includes (Position_str anchor) "left" = false)
  /\ collapse anchor ∈ [TopLeft; TopRight; BottomLeft; BottomRight]
  /\ collapse TopCentre = TopRight
  /\ collapse CentreLeft = BottomLeft
  /\ (forall position win box,
        itemPositionOf position anchor win box =
        itemPositionOf position (collapse anchor) win box)
  /\ (forall props ctx win,
        HelpItem (withAnchor (Some anchor) props) ctx win =
        HelpItem (withAnchor (Some (collapse anchor)) props) ctx win).
Proof.
  assert (Hparts : yAnchorOf anchor = yAnchorOf (collapse anchor)
                   /\ xAnchorOf anchor = xAnchorOf (collapse anchor))
    by (by destruct anchor).
  repeat split.
  1-8: unfold yAnchorOf, xAnchorOf; case_match; congruence.
  - apply list_elem_of_In. destruct anchor; simpl; tauto.
  - intros position win box. unfold itemPositionOf.
    destruct Hparts as [-> ->]. done.
  - intros props ctx win. apply HelpItem_anchorOf.
    cbn. intros x y [= <-] [= <-]. done.
Qed.

(** ** C5: the placeholder API *)

(** C5, as the code has it: before the controller delivers its API the state
    of [HelpProvider] holds a non-null object whose [registerTargetItem] can
    be called with any target id; the callback it returns, called with any
    two values, appends one line to the console, leaves the registered
    targets as they were and does not throw. *)
Theorem placeholder_registerTargetItem_only_logs (targetId : string) :
  is_Some (HelpProvider.providedValue HelpProvider.initial)
  /\ exists callback,
       call_registerTargetItem
         (HelpProvider.providedValue HelpProvider.initial) targetId
       = Returns callback
       /\ forall ir r w,
            exists w',
              callback ir r w = Returns (tt, w')
              /\ World.targets w' = World.targets w
              /\ World.console w' =
                 (World.console w ++
                  [[JsString "Info: registerTargtItrm called before initialised:";
                    ir; r]])%list.
Proof.
  split; [by eexists|].
  eexists. split; [reflexivity|].
  intros ir r w. eexists. split; [reflexivity|]. done.
Qed.

(** C5 fails as stated: the placeholder object defines [registerTargetItem]
    only, so [enableHelp], [enableFlow] and [translate] called on it before
    the controller is ready throw. *)
Lemma placeholder_other_operations_throw :
  let api := HelpProvider.providedValue HelpProvider.initial in
  call_enableHelp api false emptyWorld = TypeError
  /\ call_enableFlow api "F" false emptyWorld = TypeError
  /\ call_translate api "Skip" = TypeError.
Proof. repeat split. Qed.

(** ** C6: correction of an overflow on the left *)

Lemma Qltb_lt (a b : Q) : Qltb a b = true <-> (a < b)%Q.
Proof.
  unfold Qltb. rewrite negb_true_iff.
  destruct (Qle_bool b a) eqn:Hle.
  - apply Qle_bool_iff in Hle. split; [discriminate|]. intros Hlt.
    exfalso. by apply (Qlt_not_le a b).
  - split; [intros _|done]. apply Qnot_le_lt. intros Hle'.
    apply Qle_bool_iff in Hle'. congruence.
Qed.

Lemma Qltb_ge (a b : Q) : Qltb a b = false <-> (b <= a)%Q.
Proof.
  destruct (Qltb a b) eqn:Hlt.
  - apply Qltb_lt in Hlt. split; [discriminate|]. intros Hle.
    exfalso. by apply (Qlt_not_le a b).
  - split; [intros _|done]. apply Qnot_lt_le. intros Hlt'.
    apply Qltb_lt in Hlt'. congruence.
Qed.

Lemma correctOverflow_split (initialWidth : Q) (win : Window.t)
    (box : DOMRect.t) (style : gmap string CssLength) :
  correctOverflow initialWidth win box style =
  correctVertical win box (correctHorizontal initialWidth win box style).
Proof. reflexivity. Qed.

Lemma correctVertical_horizontal_keys (win : Window.t) (box : DOMRect.t)
    (style : gmap string CssLength) (k : string) :
  k <> "top" -> k <> "bottom" ->
  correctVertical win box style !! k = style !! k.
Proof.
  intros Ht Hb. unfold correctVertical. case_match; [|done].
  by rewrite !lookup_insert_ne.
Qed.

Lemma correctHorizontal_vertical_keys (initialWidth : Q) (win : Window.t)
    (box : DOMRect.t) (style : gmap string CssLength) (k : string) :
  k <> "left" -> k <> "right" ->
  correctHorizontal initialWidth win box style !! k = style !! k.
Proof.
  intros Hl Hr. unfold correctHorizontal.
  repeat case_match; by rewrite ?lookup_insert_ne.
Qed.

(** C6: when the mounted popup's box has [left < 0] the pass sets [left] to
    [0px] and [right] to [innerWidth - (right - left)] px, and when [top] is
    not negative it leaves [top] and [bottom] as they were. *)
Theorem left_overflow_pins_left (initialWidth : Q) (win : Window.t)
    (box : DOMRect.t) (style : gmap string CssLength) :
  (DOMRect.left box < 0)%Q ->
  let corrected := correctOverflow initialWidth win box style in
  corrected !! "left" = Some (Px 0)
  /\ corrected !! "right" =
     Some (Px (Window.innerWidth win - (DOMRect.right box - DOMRect.left box)))
  /\ ((0 <= DOMRect.top box)%Q ->
      corrected !! "top" = style !! "top"
      /\ corrected !! "bottom" = style !! "bottom").
Proof.
  intros Hleft corrected. subst corrected. rewrite correctOverflow_split.
  apply Qltb_lt in Hleft.
  split; [|split].
  - rewrite correctVertical_horizontal_keys by done.
    unfold correctHorizontal. rewrite Hleft.
    rewrite lookup_insert_ne by done. by rewrite lookup_insert_eq.
  - rewrite correctVertical_horizontal_keys by done.
    unfold correctHorizontal. rewrite Hleft. by rewrite lookup_insert_eq.
  - intros Htop. apply Qltb_ge in Htop.
    unfold correctVertical. rewrite Htop.
    by rewrite !correctHorizontal_vertical_keys.
Qed.

Lemma left_overflow_pins_left_witness :
  let box := DOMRect.mk 10 30 (-20) 80 in
  let style : gmap string CssLength := {[ "top" := Px 10; "left" := Px (-20) ]} in
  let corrected := correctOverflow 800 Scenario.win box style in
  corrected !! "left" = Some (Px 0)
  /\ corrected !! "right" = Some (Px (800 - (80 - -20)))
  /\ ((0 <= 10)%Q ->
      corrected !! "top" = Some (Px 10) /\ corrected !! "bottom" = None).
Proof.
  intros box style.
  apply (left_overflow_pins_left 800 Scenario.win box style).
  reflexivity.
Defined.

(** ** C7: running the correction pass again *)

(** A box inside the window on the left, on the right and at the top is left
    alone by the pass. *)
Lemma correctOverflow_inside (initialWidth : Q) (win : Window.t)
    (box : DOMRect.t) (style : gmap string CssLength) :
  (0 <= DOMRect.left box)%Q ->
  (DOMRect.right box <= initialWidth)%Q ->
  (0 <= DOMRect.top box)%Q ->
  correctOverflow initialWidth win box style = style.
Proof.
  intros Hl Hr Ht. apply Qltb_ge in Hl, Hr, Ht.
  unfold correctOverflow. by rewrite Hl, Hr, Ht.
Qed.

(** For one and the same measured box the pass writes what it wrote before. *)
Lemma correctOverflow_same_box (initialWidth : Q) (win : Window.t)
    (box : DOMRect.t) (style : gmap string CssLength) :
  correctOverflow initialWidth win box
    (correctOverflow initialWidth win box style)
  = correctOverflow initialWidth win box style.
Proof.
  rewrite !correctOverflow_split. unfold correctVertical, correctHorizontal.
  apply map_eq. intros k.
  repeat case_match; try done;
    repeat (rewrite lookup_insert; case_decide; simplify_eq; try done).
Qed.

(** C7, as the code has it: for a popup no wider than the window width read
    at render time, in a window no wider than it was then, and with margins
    that are not negative, a second pass over the box measured after the
    first pass leaves the corrected style as it is. *)
Theorem correction_idempotent_when_fits (initialWidth : Q) (win : Window.t)
    (m : Margins.t) (box box' : DOMRect.t) (style : gmap string CssLength) :
  (0 <= Margins.left m)%Q -> (0 <= Margins.right m)%Q ->
  (0 <= Margins.top m)%Q ->
  (DOMRect.right box - DOMRect.left box <= initialWidth)%Q ->
  (Window.innerWidth win <= initialWidth)%Q ->
  remeasured initialWidth win m box style box' ->
  correctOverflow initialWidth win box'
    (correctOverflow initialWidth win box style)
  = correctOverflow initialWidth win box style.
Proof.
  intros Hml Hmr Hmt Hwidth Hwin (Hplaced & Hx & Hy).
  destruct Hplaced as (Hleft & Hright & Htop & _).
  rewrite correctOverflow_split in Hleft, Hright, Htop.
  assert (Hh : (0 <= DOMRect.left box')%Q
               /\ (DOMRect.right box' <= initialWidth)%Q).
  { destruct (Qltb (DOMRect.left box) 0) eqn:Hl;
      [|destruct (Qltb initialWidth (DOMRect.right box)) eqn:Hr].
    - specialize (Hleft 0%Q).
      specialize
        (Hright (Window.innerWidth win - (DOMRect.right box - DOMRect.left box))%Q).
      rewrite correctVertical_horizontal_keys in Hleft, Hright by done.
      unfold correctHorizontal in Hleft, Hright. rewrite Hl in Hleft, Hright.
      rewrite lookup_insert_ne, lookup_insert_eq in Hleft by done.
      rewrite lookup_insert_eq in Hright.
      specialize (Hleft eq_refl). specialize (Hright eq_refl). lra.
    - specialize (Hleft (initialWidth - (DOMRect.right box - DOMRect.left box))%Q).
      specialize (Hright 0%Q).
      rewrite correctVertical_horizontal_keys in Hleft, Hright by done.
      unfold correctHorizontal in Hleft, Hright.
      rewrite Hl, Hr in Hleft, Hright.
      rewrite lookup_insert_eq in Hleft.
      rewrite lookup_insert_ne, lookup_insert_eq in Hright by done.
      specialize (Hleft eq_refl). specialize (Hright eq_refl). lra.
    - destruct (Hx eq_refl eq_refl) as [Hl' Hr'].
      apply Qltb_ge in Hl, Hr. lra. }
  assert (Hv : (0 <= DOMRect.top box')%Q).
  { destruct (Qltb (DOMRect.top box) 0) eqn:Ht.
    - specialize (Htop 0%Q). unfold correctVertical in Htop.
      rewrite Ht in Htop.
      rewrite lookup_insert_ne, lookup_insert_eq in Htop by done.
      specialize (Htop eq_refl). lra.
    - destruct (Hy eq_refl) as [Ht' _]. apply Qltb_ge in Ht. lra. }
  destruct Hh as [Hl Hr]. by apply correctOverflow_inside.
Qed.

Lemma correction_idempotent_when_fits_witness :
  let win := Scenario.win in
  let m := Margins.mk 0 0 0 4 in
  let box := DOMRect.mk 10 30 (-20) 80 in
  let style : gmap string CssLength := {[ "top" := Px 10; "left" := Px (-24) ]} in
  let box' := DOMRect.mk 10 30 4 100 in
  remeasured 800 win m box style box'
  /\ correctOverflow 800 win box' (correctOverflow 800 win box style)
     = correctOverflow 800 win box style.
Proof.
  intros win m box style box'.
  assert (Hre : remeasured 800 win m box style box').
  { split; [|split].
    - repeat split; intros x Hx; vm_compute in Hx; try discriminate;
        injection Hx as <-; reflexivity.
    - intros Hl. vm_compute in Hl. discriminate.
    - intros _. split; reflexivity. }
  split; [exact Hre|].
  apply (correction_idempotent_when_fits 800 win m box box' style);
    [vm_compute; discriminate .. | exact Hre].
Defined.

(** C7 fails as stated: a popup 150px wide in a window 100px wide overflows
    on the left; the first pass pins [left] to [0px], the box measured for
    the corrected style then overflows on the right, and the second pass
    pins [right] to [0px] and moves [left] to [-50px]. *)
Lemma wide_popup_flips_on_second_pass :
  let win := Window.mk 100 100 in
  let m := Margins.mk 0 0 0 0 in
  let box := DOMRect.mk 0 20 (-10) 140 in
  let style : gmap string CssLength := {[ "top" := Px 0; "left" := Px (-10) ]} in
  let box' := DOMRect.mk 0 20 0 150 in
  remeasured 100 win m box style box'
  /\ correctOverflow 100 win box' (correctOverflow 100 win box style)
     <> correctOverflow 100 win box style.
Proof.
  intros win m box style box'. split.
  - split; [|split].
    + repeat split; intros x Hx; vm_compute in Hx; try discriminate;
        injection Hx as <-; reflexivity.
    + intros Hl. vm_compute in Hl. discriminate.
    + intros _. split; reflexivity.
  - intros Heq.
    apply (f_equal (fun s : gmap string CssLength => s !! "left")) in Heq.
    vm_compute in Heq. discriminate.
Qed.

(** ** C8: the highlighter set *)

(** The gate reads the target dictionary for the element's box only. *)
Lemma shouldRender_same_box (props : HelpItemProperties.t)
    (ats ats' : AppTargetsState.t) (ss : SystemState.t) (api : Controller.t) :
  Element.rect <$>
    targetRef (AppTargetsState.targetItems ats' !! HelpItemProperties.target props)
  = Element.rect <$>
      targetRef (AppTargetsState.targetItems ats !! HelpItemProperties.target props) ->
  shouldRender props (SystemContext.mk ats' ss api)
  = shouldRender props (SystemContext.mk ats ss api).
Proof.
  intros Hbox. unfold shouldRender, targetBox. cbn -[getItemState truthy targetRef].
  destruct (getItemState _ _) as [flowState myState].
  destruct (targetRef (AppTargetsState.targetItems ats' !! _)) as [el'|],
    (targetRef (AppTargetsState.targetItems ats !! _)) as [el|];
    simpl in Hbox; simplify_eq; [|done].
  by rewrite Hbox.
Qed.

Lemma HelpItem_shown_highlights (props : HelpItemProperties.t)
    (ctx : SystemContext.t) (win : Window.t) (i : string) (t : Target.t)
    (el : Element.t) :
  shouldRender props ctx = true ->
  HelpItemProperties.myId props = Some i ->
  default true (HelpItemProperties.highlightTarget props) = true ->
  AppTargetsState.targetItems (SystemContext.appTargetsState ctx)
    !! HelpItemProperties.target props = Some t ->
  Target.ref t = Some el ->
  exists div,
    HelpItem props ctx win =
    Returns (Portal div,
             setTarget ctx (HelpItemProperties.target props) (addHighlight i t el)).
Proof.
  intros Hgate Hi Hhl Ht Hel.
  destruct (HelpItem_shown props ctx win Hgate)
    as (i'&t'&el'&?&?&?&Hi'&Ht'&Hel'&_&->&->).
  simplify_eq. rewrite Hhl. by eexists.
Qed.

Lemma HelpItem_hidden_unhighlights (props : HelpItemProperties.t)
    (ctx : SystemContext.t) (win : Window.t) (i : string) (t : Target.t)
    (el : Element.t) :
  shouldRender props ctx = false ->
  HelpItemProperties.myId props = Some i -> i <> "" ->
  default true (HelpItemProperties.highlightTarget props) = true ->
  AppTargetsState.targetItems (SystemContext.appTargetsState ctx)
    !! HelpItemProperties.target props = Some t ->
  Target.ref t = Some el ->
  HelpItem props ctx win =
  Returns (Fragment,
           setTarget ctx (HelpItemProperties.target props) (removeHighlight i t el)).
Proof.
  intros Hgate Hi Hne Hhl Ht Hel. unfold HelpItem.
  rewrite Hgate, Hi, Ht, Hhl. destruct (getItemState _ _) as [? ?].
  unfold targetRef. cbn -[truthy]. rewrite Hel.
  apply truthy_Some in Hne. by rewrite Hne.
Qed.

(** What un-rendering does to the classes: they go exactly when the last
    marker goes. *)
Lemma removeHighlight_spec (i : string) (t : Target.t) (el : Element.t) :
  i ∈ Target.highlighters t ->
  exists el',
    Target.ref (removeHighlight i t el) = Some el'
    /\ Element.rect el' = Element.rect el
    /\ Target.highlighters (removeHighlight i t el) = Target.highlighters t ∖ {[ i ]}
    /\ (Target.highlighters t ∖ {[ i ]} = ∅ ->
        Element.classList el' = Element.classList el ∖ highlightClasses)
    /\ (Target.highlighters t ∖ {[ i ]} <> ∅ ->
        Element.classList el' = Element.classList el).
Proof.
  intros Hin. unfold removeHighlight.
  rewrite bool_decide_eq_true_2 by done.
  case_bool_decide as Hsize.
  - apply size_empty_iff, leibniz_equiv in Hsize.
    eexists. repeat split; simpl; done.
  - eexists. repeat split; simpl; try done.
    intros Hempty. rewrite Hempty, size_empty in Hsize. done.
Qed.

Lemma targetView_Some (ats : AppTargetsState.t) (tid : string)
    (r : DOMRect.t) (cs hs : gset string) :
  targetView ats tid = Some (r, cs, hs) ->
  exists t el,
    AppTargetsState.targetItems ats !! tid = Some t /\ Target.ref t = Some el
    /\ Element.rect el = r /\ Element.classList el = cs
    /\ Target.highlighters t = hs.
Proof.
  unfold targetView. intros Hview.
  destruct (AppTargetsState.targetItems ats !! tid) as [t|]; [|done].
  simpl in Hview. destruct (Target.ref t) as [el|] eqn:Hel; [|done].
  simpl in Hview. simplify_eq. by exists t, el.
Qed.

Lemma targetView_setTarget (ctx : SystemContext.t) (tid : string) (t : Target.t)
    (el : Element.t) :
  Target.ref t = Some el ->
  targetView (setTarget ctx tid t) tid
  = Some (Element.rect el, Element.classList el, Target.highlighters t).
Proof.
  intros Hel. unfold targetView, setTarget. simpl.
  rewrite lookup_insert_eq. simpl. by rewrite Hel.
Qed.

(** The gate looks at the target's box only. *)
Lemma shouldRender_view (props : HelpItemProperties.t)
    (ats ats' : AppTargetsState.t) (ss : SystemState.t) (api : Controller.t)
    (r : DOMRect.t) (cs cs' hs hs' : gset string) :
  targetView ats (HelpItemProperties.target props) = Some (r, cs, hs) ->
  targetView ats' (HelpItemProperties.target props) = Some (r, cs', hs') ->
  shouldRender props (SystemContext.mk ats' ss api)
  = shouldRender props (SystemContext.mk ats ss api).
Proof.
  intros (t&el&Ht&Hel&Hr&_)%targetView_Some (t'&el'&Ht'&Hel'&Hr'&_)%targetView_Some.
  apply shouldRender_same_box. rewrite Ht, Ht'. unfold targetRef. simpl.
  rewrite Hel, Hel'. simpl. congruence.
Qed.

(** One render of an item that shows: the classes and the marker are added. *)
Lemma shown_step (props : HelpItemProperties.t) (ats : AppTargetsState.t)
    (ss : SystemState.t) (api : Controller.t) (win : Window.t) (i : string)
    (r : DOMRect.t) (cs hs : gset string) :
  targetView ats (HelpItemProperties.target props) = Some (r, cs, hs) ->
  shouldRender props (SystemContext.mk ats ss api) = true ->
  HelpItemProperties.myId props = Some i ->
  default true (HelpItemProperties.highlightTarget props) = true ->
  exists div ats',
    HelpItem props (SystemContext.mk ats ss api) win = Returns (Portal div, ats')
    /\ targetView ats' (HelpItemProperties.target props)
       = Some (r, cs ∪ highlightClasses, hs ∪ {[ i ]}).
Proof.
  intros (t&el&Ht&Hel&<-&<-&<-)%targetView_Some Hgate Hi Hhl.
  destruct (HelpItem_shown_highlights props _ win i t el Hgate Hi Hhl Ht Hel)
    as [div Hrun].
  eexists _, _. split; [exact Hrun|].
  by rewrite (targetView_setTarget _ _ (addHighlight i t el) _ eq_refl).
Qed.

(** One render of an item that does not show and had left its marker: the
    marker goes, and the classes go with the last marker. *)
Lemma hidden_step (props : HelpItemProperties.t) (ats : AppTargetsState.t)
    (ss : SystemState.t) (api : Controller.t) (win : Window.t) (i : string)
    (r : DOMRect.t) (cs hs : gset string) :
  targetView ats (HelpItemProperties.target props) = Some (r, cs, hs) ->
  shouldRender props (SystemContext.mk ats ss api) = false ->
  HelpItemProperties.myId props = Some i -> i <> "" ->
  default true (HelpItemProperties.highlightTarget props) = true ->
  i ∈ hs ->
  exists ats',
    HelpItem props (SystemContext.mk ats ss api) win = Returns (Fragment, ats')
    /\ targetView ats' (HelpItemProperties.target props)
       = Some (r,
               if decide (hs ∖ {[ i ]} = ∅) then cs ∖ highlightClasses else cs,
               hs ∖ {[ i ]}).
Proof.
  intros (t&el&Ht&Hel&<-&<-&<-)%targetView_Some Hgate Hi Hne Hhl Hin.
  eexists. split.
  { by apply (HelpItem_hidden_unhighlights props _ win i t el). }
  destruct (removeHighlight_spec i t el Hin)
    as (el' & Hel' & Hrect & Hmark & Hdrop & Hkeep).
  rewrite (targetView_setTarget _ _ _ _ Hel'), Hrect, Hmark.
  case_decide as Hempty; by rewrite ?(Hdrop Hempty), ?(Hkeep Hempty).
Qed.

(** Set identities used for the two markers and the two classes. *)
Section marker_sets.
#[local] Set Warnings "-clear-no-such-hyp".
Context (hs cs : gset string) (i1 i2 : string).

Lemma markers_both : hs ∪ {[ i1 ]} ∪ {[ i2 ]} = hs ∪ {[ i1; i2 ]}.
Proof. set_solver. Qed.

Lemma markers_first_gone :
  (hs ∪ {[ i1 ]} ∪ {[ i2 ]}) ∖ {[ i1 ]} = (hs ∪ {[ i2 ]}) ∖ {[ i1 ]}.
Proof. set_solver. Qed.

Lemma markers_second_left : i1 <> i2 -> (hs ∪ {[ i2 ]}) ∖ {[ i1 ]} <> ∅.
Proof. intros Hne. set_solver. Qed.

Lemma markers_both_gone :
  ((hs ∪ {[ i2 ]}) ∖ {[ i1 ]}) ∖ {[ i2 ]} = hs ∖ {[ i1; i2 ]}.
Proof. set_solver. Qed.

Lemma classes_dropped :
  (cs ∪ highlightClasses) ∖ highlightClasses = cs ∖ highlightClasses.
Proof. set_solver. Qed.

Lemma classes_added_twice :
  cs ∪ highlightClasses ∪ highlightClasses = cs ∪ highlightClasses.
Proof. set_solver. Qed.

End marker_sets.

(** C8: two items highlighting one target both render; when the first stops
    rendering its marker leaves the set and the target keeps both highlight
    classes; when the second stops too its marker leaves, and the classes
    are removed exactly if no marker is left. *)
Theorem highlight_kept_until_last_marker
    (p1 p2 : HelpItemProperties.t) (i1 i2 : string)
    (ats : AppTargetsState.t) (ss ss1 ss2 : SystemState.t)
    (api : Controller.t) (win : Window.t)
    (box : DOMRect.t) (cs hs : gset string) :
  HelpItemProperties.myId p1 = Some i1 ->
  HelpItemProperties.myId p2 = Some i2 ->
  i1 <> i2 ->
  HelpItemProperties.target p2 = HelpItemProperties.target p1 ->
  default true (HelpItemProperties.highlightTarget p1) = true ->
  default true (HelpItemProperties.highlightTarget p2) = true ->
  targetView ats (HelpItemProperties.target p1) = Some (box, cs, hs) ->
  shouldRender p1 (SystemContext.mk ats ss api) = true ->
  shouldRender p2 (SystemContext.mk ats ss api) = true ->
  shouldRender p1 (SystemContext.mk ats ss1 api) = false ->
  shouldRender p2 (SystemContext.mk ats ss2 api) = false ->
  let tid := HelpItemProperties.target p1 in
  exists div1 div2 a1 a2 a3 a4,
    HelpItem p1 (SystemContext.mk ats ss api) win = Returns (Portal div1, a1)
    /\ HelpItem p2 (SystemContext.mk a1 ss api) win = Returns (Portal div2, a2)
    /\ targetView a2 tid
       = Some (box, cs ∪ highlightClasses, hs ∪ {[ i1; i2 ]})
    /\ HelpItem p1 (SystemContext.mk a2 ss1 api) win = Returns (Fragment, a3)
    /\ targetView a3 tid
       = Some (box, cs ∪ highlightClasses, (hs ∪ {[ i2 ]}) ∖ {[ i1 ]})
    /\ HelpItem p2 (SystemContext.mk a3 ss2 api) win = Returns (Fragment, a4)
    /\ targetView a4 tid
       = Some (box,
               if decide (hs ∖ {[ i1; i2 ]} = ∅)
               then cs ∖ highlightClasses
               else cs ∪ highlightClasses,
               hs ∖ {[ i1; i2 ]}).
Proof.
  intros Hi1 Hi2 Hne Htid Hhl1 Hhl2 Hv0 Hon1 Hon2 Hoff1 Hoff2 tid.
  assert (Hne1 : i1 <> "").
  { apply shouldRender_true in Hon1 as (?&?&?&?&?&?&?&_). congruence. }
  assert (Hne2 : i2 <> "").
  { apply shouldRender_true in Hon2 as (?&?&?&?&?&?&?&_). congruence. }
  destruct (shown_step p1 ats ss api win i1 _ _ _ Hv0 Hon1 Hi1 Hhl1)
    as (div1 & a1 & Hrun1 & Hv1).
  rewrite <- Htid in Hv0, Hv1.
  rewrite <- (shouldRender_view p2 ats a1 ss api _ _ _ _ _ Hv0 Hv1) in Hon2.
  destruct (shown_step p2 a1 ss api win i2 _ _ _ Hv1 Hon2 Hi2 Hhl2)
    as (div2 & a2 & Hrun2 & Hv2).
  rewrite classes_added_twice, markers_both in Hv2.
  rewrite Htid in Hv0, Hv2.
  rewrite <- (shouldRender_view p1 ats a2 ss1 api _ _ _ _ _ Hv0 Hv2) in Hoff1.
  assert (Hin1 : i1 ∈ hs ∪ {[ i1; i2 ]}).
  { apply elem_of_union_r, elem_of_union_l, elem_of_singleton. done. }
  destruct (hidden_step p1 a2 ss1 api win i1 _ _ _ Hv2 Hoff1 Hi1 Hne1 Hhl1 Hin1)
    as (a3 & Hrun3 & Hv3).
  rewrite <- markers_both, markers_first_gone in Hv3.
  rewrite decide_False in Hv3 by (by apply markers_second_left).
  rewrite <- Htid in Hv0, Hv3.
  rewrite <- (shouldRender_view p2 ats a3 ss2 api _ _ _ _ _ Hv0 Hv3) in Hoff2.
  assert (Hin2 : i2 ∈ (hs ∪ {[ i2 ]}) ∖ {[ i1 ]}).
  { apply elem_of_difference. split.
    - apply elem_of_union_r, elem_of_singleton. done.
    - rewrite elem_of_singleton. congruence. }
  destruct (hidden_step p2 a3 ss2 api win i2 _ _ _ Hv3 Hoff2 Hi2 Hne2 Hhl2 Hin2)
    as (a4 & Hrun4 & Hv4).
  rewrite markers_both_gone, classes_dropped in Hv4.
  rewrite Htid in Hv3, Hv4. fold tid in Hv2, Hv3, Hv4.
  by exists div1, div2, a1, a2, a3, a4.
Qed.

Lemma highlight_kept_until_last_marker_witness :
  let ctx := fun i1 i2 =>
    SystemContext.mk Scenario.targets0 (Scenario.systemState i1 i2) Scenario.api in
  (shouldRender Scenario.I1 (ctx Scenario.shown Scenario.shown) = true
   /\ shouldRender Scenario.I2 (ctx Scenario.shown Scenario.shown) = true
   /\ shouldRender Scenario.I1 (ctx Scenario.hidden Scenario.shown) = false
   /\ shouldRender Scenario.I2 (ctx Scenario.hidden Scenario.hidden) = false)
  /\ exists div1 div2 a1 a2 a3 a4,
       HelpItem Scenario.I1 (ctx Scenario.shown Scenario.shown) Scenario.win
       = Returns (Portal div1, a1)
       /\ HelpItem Scenario.I2
            (SystemContext.mk a1
               (Scenario.systemState Scenario.shown Scenario.shown) Scenario.api)
            Scenario.win
          = Returns (Portal div2, a2)
       /\ targetView a2 "T"
          = Some (Scenario.box, ∅ ∪ highlightClasses, ∅ ∪ {[ "I1"; "I2" ]})
       /\ HelpItem Scenario.I1
            (SystemContext.mk a2
               (Scenario.systemState Scenario.hidden Scenario.shown) Scenario.api)
            Scenario.win
          = Returns (Fragment, a3)
       /\ targetView a3 "T"
          = Some (Scenario.box, ∅ ∪ highlightClasses, (∅ ∪ {[ "I2" ]}) ∖ {[ "I1" ]})
       /\ HelpItem Scenario.I2
            (SystemContext.mk a3
               (Scenario.systemState Scenario.hidden Scenario.hidden) Scenario.api)
            Scenario.win
          = Returns (Fragment, a4)
       /\ targetView a4 "T"
          = Some (Scenario.box,
                  if decide ((∅ : gset string) ∖ {[ "I1"; "I2" ]} = ∅)
                  then ∅ ∖ highlightClasses
                  else ∅ ∪ highlightClasses,
                  ∅ ∖ {[ "I1"; "I2" ]}).
Proof.
  intros ctx. split; [repeat split; reflexivity|].
  apply (highlight_kept_until_last_marker Scenario.I1 Scenario.I2 "I1" "I2"
           Scenario.targets0
           (Scenario.systemState Scenario.shown Scenario.shown)
           (Scenario.systemState Scenario.hidden Scenario.shown)
           (Scenario.systemState Scenario.hidden Scenario.hidden)
           Scenario.api Scenario.win Scenario.box ∅ ∅);
    first [reflexivity | discriminate].
Defined.

(** * Further properties of the components *)

(** ** [HelpItem]: what a render returns *)

Lemma withTargets_same (ctx : SystemContext.t) :
  withTargets (SystemContext.appTargetsState ctx) ctx = ctx.
Proof. by destruct ctx. Qed.

Lemma setTarget_same (ctx : SystemContext.t) (tid : string) (t : Target.t) :
  AppTargetsState.targetItems (SystemContext.appTargetsState ctx) !! tid = Some t ->
  setTarget ctx tid t = SystemContext.appTargetsState ctx.
Proof.
  intros Ht. unfold setTarget. rewrite insert_id by done.
  by destruct (SystemContext.appTargetsState ctx).
Qed.

Lemma setTarget_again (ctx : SystemContext.t) (tid : string) (t t' : Target.t) :
  setTarget (withTargets (setTarget ctx tid t) ctx) tid t' = setTarget ctx tid t'.
Proof. unfold setTarget. simpl. by rewrite insert_insert_eq. Qed.

(** The popup in full, for an open gate. *)
Lemma HelpItem_shown_full (props : HelpItemProperties.t) (ctx : SystemContext.t)
    (win : Window.t) :
  shouldRender props ctx = true ->
  exists i t el fs anchor,
    HelpItemProperties.myId props = Some i /\
    AppTargetsState.targetItems (SystemContext.appTargetsState ctx)
      !! HelpItemProperties.target props = Some t /\
    Target.ref t = Some el /\
    fst (getItemState (HelpItemProperties.myId props)
           (SystemContext.systemState ctx)) = Some fs /\
    anchorOf (HelpItemProperties.anchor props)
      (default BottomRight (HelpItemProperties.position props)) = Some anchor /\
    HelpItem props ctx win =
      Returns
        (Portal
           (HelpItemDiv.mk (HelpItemProperties.id props)
              (itemMarginOf (HelpItemProperties.margin props)
                 (default BottomRight (HelpItemProperties.position props)))
              (itemPositionOf
                 (default BottomRight (HelpItemProperties.position props))
                 anchor win (Element.rect el))
              (Controller.translate (SystemContext.api ctx) "Don't show me these")
              (dismissFlowLabelOf (SystemContext.api ctx) fs)),
         if default true (HelpItemProperties.highlightTarget props)
         then setTarget ctx (HelpItemProperties.target props) (addHighlight i t el)
         else SystemContext.appTargetsState ctx).
Proof.
  intros Hgate.
  destruct (proj1 (shouldRender_true props ctx) Hgate)
    as (i&t&el&fs&it&Hi&_&Ht&Hel&_&Hst&_).
  destruct (anchorOf_total (HelpItemProperties.anchor props)
              (default BottomRight (HelpItemProperties.position props)))
    as [anchor Ha].
  exists i, t, el, fs, anchor.
  unfold HelpItem. rewrite Hgate, Hi, Hst, Ha, Ht.
  unfold targetBox, targetRef. cbn -[itemPositionOf itemMarginOf]. rewrite Hel.
  unfold dismissFlowLabelOf. repeat split; done.
Qed.

Lemma HelpItem_hidden_full (props : HelpItemProperties.t) (ctx : SystemContext.t)
    (win : Window.t) :
  shouldRender props ctx = false ->
  HelpItem props ctx win = Returns (Fragment, hiddenTargets props ctx).
Proof.
  intros Hgate. unfold HelpItem, hiddenTargets, targetRef. rewrite Hgate.
  destruct (getItemState _ _) as [flowState myState].
  destruct (_ !! HelpItemProperties.target props) as [t|]; [|done].
  simpl. destruct (Target.ref t) as [el|];
    destruct (HelpItemProperties.myId props) as [i|]; try done.
  simpl. by destruct (_ && _).
Qed.


(** X1: [HelpItem] never throws, and what it returns follows the gate: the
    popup when the gate is open, the empty fragment when it is closed. The
    anchor table has an entry for every position, and every property read
    in the render branch is behind the gate that makes it defined. *)
Theorem HelpItem_never_throws (props : HelpItemProperties.t)
    (ctx : SystemContext.t) (win : Window.t) :
  exists jsx targets,
    HelpItem props ctx win = Returns (jsx, targets)
    /\ (jsx = Fragment <-> shouldRender props ctx = false).
Proof.
  destruct (shouldRender props ctx) eqn:Hgate.
  - destruct (HelpItem_shown_full props ctx win Hgate)
      as (?&?&?&?&?&_&_&_&_&_&->).
    eexists _, _. split; [done|]. split; discriminate.
  - rewrite (HelpItem_hidden_full props ctx win Hgate). by eexists _, _.
Qed.

(** X2: An item whose id is not set (or is the empty string) has no flow and no
    item state, renders nothing, and leaves every target as it was, whatever
    the state of the system and of its target. *)
Theorem unset_item_id_renders_nothing (props : HelpItemProperties.t)
    (ctx : SystemContext.t) (win : Window.t) :
  truthy (HelpItemProperties.myId props) = false ->
  getItemState (HelpItemProperties.myId props) (SystemContext.systemState ctx)
    = (None, None)
  /\ HelpItem props ctx win = Returns (Fragment, SystemContext.appTargetsState ctx).
Proof.
  intros Hid. split.
  - unfold getItemState. destruct (HelpItemProperties.myId props); [|done].
    by rewrite Hid.
  - assert (Hgate : shouldRender props ctx = false).
    { unfold shouldRender. destruct (getItemState _ _). by rewrite Hid. }
    rewrite (HelpItem_hidden_full props ctx win Hgate). unfold hiddenTargets.
    destruct (_ !! HelpItemProperties.target props) as [t|]; [|done].
    destruct (HelpItemProperties.myId props) as [i|]; [|done].
    destruct (Target.ref t); [|done].
    rewrite Hid. by rewrite andb_false_r.
Qed.

Lemma unset_item_id_renders_nothing_witness :
  let props :=
    HelpItemProperties.mk "T" None None None None None None (Some "") in
  let ctx := Scenario.ctx Scenario.targets0 Scenario.shown Scenario.shown in
  HelpItem props ctx Scenario.win = Returns (Fragment, Scenario.targets0).
Proof.
  intros props ctx.
  exact (proj2 (unset_item_id_renders_nothing props ctx Scenario.win eq_refl)).
Defined.

(** X3: An item whose target is not registered, or is registered without an
    element, renders nothing and leaves the target dictionary as it was: a
    marker the item left on the target earlier stays in the set. *)
Theorem lost_target_renders_nothing (props : HelpItemProperties.t)
    (ctx : SystemContext.t) (win : Window.t) :
  targetRef
    (AppTargetsState.targetItems (SystemContext.appTargetsState ctx)
       !! HelpItemProperties.target props) = None ->
  HelpItem props ctx win = Returns (Fragment, SystemContext.appTargetsState ctx).
Proof.
  intros Href.
  assert (Hgate : shouldRender props ctx = false).
  { unfold shouldRender. destruct (getItemState _ _). rewrite Href.
    cbn -[truthy]. by rewrite andb_false_r. }
  rewrite (HelpItem_hidden_full props ctx win Hgate). unfold hiddenTargets.
  unfold targetRef in Href.
  destruct (_ !! HelpItemProperties.target props) as [t|]; [|done].
  simpl in Href. rewrite Href. by destruct (HelpItemProperties.myId props).
Qed.

Lemma lost_target_renders_nothing_witness :
  let unmounted := Target.mk None {[ "I1" ]} in
  let targets := AppTargetsState.mk {[ "T" := unmounted ]} in
  let ctx := Scenario.ctx targets Scenario.shown Scenario.shown in
  HelpItem Scenario.I1 ctx Scenario.win = Returns (Fragment, targets)
  /\ Target.highlighters <$> (AppTargetsState.targetItems targets !! "T")
     = Some {[ "I1" ]}.
Proof.
  intros unmounted targets ctx. split; [|reflexivity].
  exact (lost_target_renders_nothing Scenario.I1 ctx Scenario.win eq_refl).
Defined.

(** X4: With [highlightTarget] false a render never touches the target
    dictionary, whether the popup shows or not. *)
Theorem no_highlight_leaves_targets (props : HelpItemProperties.t)
    (ctx : SystemContext.t) (win : Window.t) :
  HelpItemProperties.highlightTarget props = Some false ->
  exists jsx,
    HelpItem props ctx win = Returns (jsx, SystemContext.appTargetsState ctx).
Proof.
  intros Hhl. destruct (shouldRender props ctx) eqn:Hgate.
  - destruct (HelpItem_shown_full props ctx win Hgate)
      as (?&?&?&?&?&_&_&_&_&_&->).
    rewrite Hhl. by eexists.
  - rewrite (HelpItem_hidden_full props ctx win Hgate). unfold hiddenTargets.
    rewrite Hhl. eexists. repeat case_match; done.
Qed.

Lemma no_highlight_leaves_targets_witness :
  let props :=
    HelpItemProperties.mk "T" None None None None (Some false) None (Some "I1") in
  let ctx := Scenario.ctx Scenario.targets0 Scenario.shown Scenario.shown in
  renders props ctx Scenario.win = true
  /\ exists jsx,
       HelpItem props ctx Scenario.win = Returns (jsx, Scenario.targets0).
Proof.
  intros props ctx. split; [reflexivity|].
  exact (no_highlight_leaves_targets props ctx Scenario.win eq_refl).
Defined.

(** ** [HelpItem]: what a render does to the targets *)

Lemma setTarget_lookup (ctx : SystemContext.t) (tid : string) (t : Target.t) :
  AppTargetsState.targetItems (setTarget ctx tid t) !! tid = Some t.
Proof. unfold setTarget. simpl. apply lookup_insert_eq. Qed.

Lemma addHighlight_again (i : string) (t : Target.t) (el : Element.t) :
  addHighlight i (addHighlight i t el)
    (Element.mk (Element.rect el) (Element.classList el ∪ highlightClasses))
  = addHighlight i t el.
Proof.
  unfold addHighlight. simpl.
  by rewrite <- !(assoc_L (∪)), !(idemp_L (∪)).
Qed.

Lemma removeHighlight_ref (i : string) (t : Target.t) (el : Element.t) :
  Target.ref t = Some el ->
  exists el',
    Target.ref (removeHighlight i t el) = Some el'
    /\ Element.rect el' = Element.rect el
    /\ i ∉ Target.highlighters (removeHighlight i t el).
Proof.
  intros Hel. unfold removeHighlight.
  case_bool_decide as Hin; [|by exists el].
  case_bool_decide; eexists; (split; [done|split; [done|]]); simpl;
    rewrite elem_of_difference, elem_of_singleton; tauto.
Qed.

Lemma removeHighlight_absent (i : string) (t : Target.t) (el : Element.t) :
  i ∉ Target.highlighters t -> removeHighlight i t el = t.
Proof. intros Hout. unfold removeHighlight. by rewrite bool_decide_eq_false_2. Qed.

(** The dictionary a render returns is the one it was given, or that one
    with the item's own target replaced by a target of the same box. *)
Lemma HelpItem_targets_shape (props : HelpItemProperties.t)
    (ctx : SystemContext.t) (win : Window.t) (jsx : JSX)
    (targets : AppTargetsState.t) :
  HelpItem props ctx win = Returns (jsx, targets) ->
  targets = SystemContext.appTargetsState ctx
  \/ exists t el t' el',
       AppTargetsState.targetItems (SystemContext.appTargetsState ctx)
         !! HelpItemProperties.target props = Some t
       /\ Target.ref t = Some el
       /\ Target.ref t' = Some el'
       /\ Element.rect el' = Element.rect el
       /\ targets = setTarget ctx (HelpItemProperties.target props) t'.
Proof.
  intros Hrun. destruct (shouldRender props ctx) eqn:Hgate.
  - destruct (HelpItem_shown_full props ctx win Hgate)
      as (i&t&el&?&?&_&Ht&Hel&_&_&Hrun').
    rewrite Hrun' in Hrun. injection Hrun as _ <-.
    destruct (default true _); [right|by left].
    by exists t, el, (addHighlight i t el), (Element.mk (Element.rect el)
      (Element.classList el ∪ highlightClasses)).
  - rewrite (HelpItem_hidden_full props ctx win Hgate) in Hrun.
    injection Hrun as _ <-. unfold hiddenTargets.
    destruct (_ !! HelpItemProperties.target props) as [t|] eqn:Ht; [|by left].
    destruct (HelpItemProperties.myId props) as [i|]; [|by left].
    destruct (Target.ref t) as [el|] eqn:Hel; [|by left].
    destruct (_ && _); [right|by left].
    destruct (removeHighlight_ref i t el Hel) as (el'&Hel'&Hrect&_).
    by exists t, el, (removeHighlight i t el), el'.
Qed.


Lemma HelpItem_same_box (props : HelpItemProperties.t)
    (ctx : SystemContext.t) (win : Window.t) (jsx : JSX)
    (targets : AppTargetsState.t) :
  HelpItem props ctx win = Returns (jsx, targets) ->
  Element.rect <$>
    targetRef (AppTargetsState.targetItems targets !! HelpItemProperties.target props)
  = Element.rect <$>
      targetRef (AppTargetsState.targetItems (SystemContext.appTargetsState ctx)
                   !! HelpItemProperties.target props).
Proof.
  intros Hrun.
  destruct (HelpItem_targets_shape props ctx win jsx targets Hrun)
    as [->|(t&el&t'&el'&Ht&Hel&Hel'&Hrect&->)]; [done|].
  rewrite setTarget_lookup, Ht. unfold targetRef. simpl.
  rewrite Hel, Hel'. simpl. by rewrite Hrect.
Qed.



Lemma hiddenTargets_cases (props : HelpItemProperties.t) (ctx : SystemContext.t) :
  hiddenTargets props ctx = SystemContext.appTargetsState ctx
  \/ exists i t el,
       HelpItemProperties.myId props = Some i
       /\ AppTargetsState.targetItems (SystemContext.appTargetsState ctx)
            !! HelpItemProperties.target props = Some t
       /\ Target.ref t = Some el
       /\ default true (HelpItemProperties.highlightTarget props)
          && truthy (Some i) = true
       /\ hiddenTargets props ctx
          = setTarget ctx (HelpItemProperties.target props)
              (removeHighlight i t el).
Proof.
  unfold hiddenTargets.
  destruct (_ !! HelpItemProperties.target props) as [t|]; [|by left].
  destruct (HelpItemProperties.myId props) as [i|]; [|by left].
  destruct (Target.ref t) as [el|] eqn:Hel; [|by left].
  destruct (_ && _) eqn:Hflag; [right|by left].
  by exists i, t, el.
Qed.

Lemma shouldRender_withTargets (props : HelpItemProperties.t)
    (ctx : SystemContext.t) (targets : AppTargetsState.t) :
  Element.rect <$>
    targetRef (AppTargetsState.targetItems targets !! HelpItemProperties.target props)
  = Element.rect <$>
      targetRef (AppTargetsState.targetItems (SystemContext.appTargetsState ctx)
                   !! HelpItemProperties.target props) ->
  shouldRender props (withTargets targets ctx) = shouldRender props ctx.
Proof.
  destruct ctx as [ats ss api]. apply shouldRender_same_box.
Qed.

(** X6: Rendering again changes nothing: a second render of the same item, in
    the same system state and window, against the target dictionary the
    first render returned, returns the same element and that same
    dictionary. *)
Theorem HelpItem_rerender_is_stable (props : HelpItemProperties.t)
    (ctx : SystemContext.t) (win : Window.t) (jsx : JSX)
    (targets : AppTargetsState.t) :
  HelpItem props ctx win = Returns (jsx, targets) ->
  HelpItem props (withTargets targets ctx) win = Returns (jsx, targets).
Proof.
  intros Hrun.
  pose proof (HelpItem_same_box props ctx win jsx targets Hrun) as Hbox.
  pose proof (shouldRender_withTargets props ctx targets Hbox) as Hsame.
  destruct (shouldRender props ctx) eqn:Hgate.
  - destruct (HelpItem_shown_full props ctx win Hgate)
      as (i&t&el&fs&anchor&Hi&Ht&Hel&Hfs&Ha&Hrun').
    rewrite Hrun' in Hrun. injection Hrun as <- <-.
    destruct (HelpItem_shown_full props (withTargets _ ctx) win Hsame)
      as (i'&t'&el'&fs'&anchor'&Hi'&Ht'&Hel'&Hfs'&Ha'&->).
    simpl in Hfs', Ht'. simplify_eq.
    destruct (default true (HelpItemProperties.highlightTarget props)) eqn:Hhl.
    + rewrite setTarget_lookup in Ht'. simplify_eq. simpl in Hel'. simplify_eq.
      simpl. by rewrite setTarget_again, addHighlight_again.
    + rewrite Ht in Ht'. simplify_eq. by rewrite withTargets_same.
  - rewrite (HelpItem_hidden_full props ctx win Hgate) in Hrun.
    injection Hrun as <- <-.
    rewrite (HelpItem_hidden_full props _ win Hsame). f_equal. f_equal.
    destruct (hiddenTargets_cases props ctx)
      as [Hh|(i&t&el&Hi&Ht&Hel&Hflag&Hh)].
    { by rewrite Hh, withTargets_same. }
    rewrite Hh. unfold hiddenTargets, withTargets at 1.
    cbn [SystemContext.appTargetsState].
    destruct (removeHighlight_ref i t el Hel) as (el'&Hel'&_&Hout).
    rewrite setTarget_lookup, Hi, Hel', Hflag, setTarget_again.
    by rewrite removeHighlight_absent.
Qed.

Lemma HelpItem_rerender_is_stable_witness :
  let ctx := Scenario.ctx Scenario.targets0 Scenario.shown Scenario.shown in
  exists jsx targets,
    HelpItem Scenario.I1 ctx Scenario.win = Returns (jsx, targets)
    /\ HelpItem Scenario.I1 (withTargets targets ctx) Scenario.win
       = Returns (jsx, targets).
Proof.
  intros ctx.
  destruct (HelpItem Scenario.I1 ctx Scenario.win) as [[jsx targets]|] eqn:Hrun;
    [|by vm_compute in Hrun].
  exists jsx, targets. split; [done|].
  exact (HelpItem_rerender_is_stable Scenario.I1 ctx Scenario.win jsx targets Hrun).
Defined.

(** X7: An item that does not show and has no marker on its target leaves the
    target dictionary exactly as it was: it never strips the highlight
    another item put there. *)
Theorem hidden_item_without_marker_changes_nothing
    (props : HelpItemProperties.t) (ctx : SystemContext.t) (win : Window.t)
    (i : string) (t : Target.t) :
  shouldRender props ctx = false ->
  HelpItemProperties.myId props = Some i ->
  AppTargetsState.targetItems (SystemContext.appTargetsState ctx)
    !! HelpItemProperties.target props = Some t ->
  i ∉ Target.highlighters t ->
  HelpItem props ctx win = Returns (Fragment, SystemContext.appTargetsState ctx).
Proof.
  intros Hgate Hi Ht Hout.
  rewrite (HelpItem_hidden_full props ctx win Hgate). unfold hiddenTargets.
  rewrite Ht, Hi. destruct (Target.ref t) as [el|]; [|done].
  destruct (_ && _); [|done].
  by rewrite removeHighlight_absent, setTarget_same.
Qed.

Lemma hidden_item_without_marker_changes_nothing_witness :
  let highlighted :=
    Target.mk (Some (Element.mk Scenario.box highlightClasses)) {[ "I1" ]} in
  let targets := AppTargetsState.mk {[ "T" := highlighted ]} in
  let ctx := Scenario.ctx targets Scenario.shown Scenario.hidden in
  HelpItem Scenario.I2 ctx Scenario.win = Returns (Fragment, targets).
Proof.
  intros highlighted targets ctx.
  apply (hidden_item_without_marker_changes_nothing Scenario.I2 ctx Scenario.win
           "I2" highlighted); [reflexivity..|].
  intros Hin. simpl in Hin. apply elem_of_singleton in Hin. discriminate.
Defined.

(** ** The geometry of a placement *)

Lemma yAnchorOf_cases (anchor : Position) :
  yAnchorOf anchor = "top" \/ yAnchorOf anchor = "bottom".
Proof. unfold yAnchorOf. case_match; auto. Qed.

Lemma xAnchorOf_cases (anchor : Position) :
  xAnchorOf anchor = "left" \/ xAnchorOf anchor = "right".
Proof. unfold xAnchorOf. case_match; auto. Qed.

Lemma obj2_lookup (k1 k2 k : string) (v1 v2 : Q) :
  obj2 k1 v1 k2 v2 !! k =
  if decide (k2 = k) then Some v2
  else if decide (k1 = k) then Some v1 else None.
Proof.
  unfold obj2. rewrite lookup_insert. case_decide; [done|].
  rewrite lookup_insert. case_decide; [done|]. apply lookup_empty.
Qed.


(** X8: A placement pins exactly one edge per axis: [top] or [bottom], never
    both, as the anchor's vertical part says, and [left] or [right] as its
    horizontal part says; it has no other entry. *)
Theorem itemPosition_pins_one_edge_per_axis (position anchor : Position)
    (win : Window.t) (box : DOMRect.t) :
  let itemPosition := itemPositionOf position anchor win box in
  (is_Some (itemPosition !! "top") <-> yAnchorOf anchor = "top")
  /\ (is_Some (itemPosition !! "bottom") <-> yAnchorOf anchor = "bottom")
  /\ (is_Some (itemPosition !! "left") <-> xAnchorOf anchor = "left")
  /\ (is_Some (itemPosition !! "right") <-> xAnchorOf anchor = "right")
  /\ (forall k, is_Some (itemPosition !! k) ->
        k = yAnchorOf anchor \/ k = xAnchorOf anchor).
Proof.
  intros itemPosition. subst itemPosition.
  assert (Hkeys : forall k,
            is_Some (itemPositionOf position anchor win box !! k)
            <-> k = yAnchorOf anchor \/ k = xAnchorOf anchor).
  { intros k. unfold itemPositionOf.
    destruct position;
      cbn [Position_str String.eqb Ascii.eqb Bool.eqb array_includes existsb orb];
      rewrite obj2_lookup; repeat case_decide; subst;
      (split; [intros [? ?]; simplify_eq; tauto|intros [?|?]; by eauto]). }
  destruct (yAnchorOf_cases anchor) as [Hy|Hy],
    (xAnchorOf_cases anchor) as [Hx|Hx];
    rewrite !Hkeys, Hy, Hx; repeat split;
      try (intros [?|?]; congruence); try (intros ?; by auto);
      try (intros ?; tauto);
      intros k Hk; apply Hkeys in Hk; by rewrite Hy, Hx in Hk.
Qed.


Lemma respell_anchorOf (anchor : option Position) (position : Position) :
  anchorOf anchor (respell position) = anchorOf anchor position.
Proof. destruct anchor; [done|]. by destruct position. Qed.

Lemma respell_itemPositionOf (position anchor : Position) (win : Window.t)
    (box : DOMRect.t) :
  itemPositionOf (respell position) anchor win box
  = itemPositionOf position anchor win box.
Proof. unfold itemPositionOf. by destruct position. Qed.

Lemma respell_itemMarginOf (margin : option string) (position : Position) :
  itemMarginOf margin (respell position) = itemMarginOf margin position.
Proof. unfold itemMarginOf. by destruct position. Qed.

(** X10: The two spellings of a position are interchangeable: an item given
    ["top-center"] renders exactly as one given ["top-centre"], and so for
    the other three centre positions, in every state: same gate, same
    default anchor, same placement, same margin, same effect on the target. *)
Theorem spelling_of_position_is_immaterial (position : Position)
    (props : HelpItemProperties.t) (ctx : SystemContext.t) (win : Window.t) :
  HelpItem (withPosition (Some (respell position)) props) ctx win
  = HelpItem (withPosition (Some position) props) ctx win.
Proof.
  unfold HelpItem.
  change (shouldRender (withPosition (Some (respell position)) props) ctx)
    with (shouldRender props ctx).
  change (shouldRender (withPosition (Some position) props) ctx)
    with (shouldRender props ctx).
  cbn -[shouldRender itemPositionOf anchorOf itemMarginOf getItemState respell].
  rewrite respell_anchorOf, respell_itemMarginOf.
  destruct (getItemState _ _) as [flowState myState].
  destruct (shouldRender props ctx); [|done].
  destruct (anchorOf _ _); [|done].
  by rewrite respell_itemPositionOf.
Qed.

(** ** The overflow correction, branch by branch *)

(** X11: A popup that does not overflow on the left and whose right edge is past
    the window width read at render time is pinned to the right: [right]
    becomes [0px] and [left] becomes [initialWidth - (right - left)] px;
    [top] and [bottom] are left alone unless the popup overflows at the top. *)
Theorem right_overflow_pins_right (initialWidth : Q) (win : Window.t)
    (box : DOMRect.t) (style : gmap string CssLength) :
  (0 <= DOMRect.left box)%Q ->
  (initialWidth < DOMRect.right box)%Q ->
  let corrected := correctOverflow initialWidth win box style in
  corrected !! "right" = Some (Px 0)
  /\ corrected !! "left" =
     Some (Px (initialWidth - (DOMRect.right box - DOMRect.left box)))
  /\ ((0 <= DOMRect.top box)%Q ->
      corrected !! "top" = style !! "top"
      /\ corrected !! "bottom" = style !! "bottom").
Proof.
  intros Hleft Hright corrected. subst corrected.
  rewrite correctOverflow_split.
  apply Qltb_ge in Hleft. apply Qltb_lt in Hright.
  split; [|split].
  - rewrite correctVertical_horizontal_keys by done.
    unfold correctHorizontal. rewrite Hleft, Hright.
    rewrite lookup_insert_ne by done. by rewrite lookup_insert_eq.
  - rewrite correctVertical_horizontal_keys by done.
    unfold correctHorizontal. rewrite Hleft, Hright. by rewrite lookup_insert_eq.
  - intros Htop. apply Qltb_ge in Htop.
    unfold correctVertical. rewrite Htop.
    by rewrite !correctHorizontal_vertical_keys.
Qed.

Lemma right_overflow_pins_right_witness :
  let box := DOMRect.mk 10 30 750 850 in
  let style : gmap string CssLength := {[ "top" := Px 10; "left" := Px 750 ]} in
  let corrected := correctOverflow 800 Scenario.win box style in
  corrected !! "right" = Some (Px 0)
  /\ corrected !! "left" = Some (Px (800 - (850 - 750)))
  /\ ((0 <= 10)%Q ->
      corrected !! "top" = Some (Px 10) /\ corrected !! "bottom" = None).
Proof.
  intros box style.
  apply (right_overflow_pins_right 800 Scenario.win box style);
    [vm_compute; discriminate | reflexivity].
Defined.

(** X12: A popup whose top edge is above the window is pinned to the top: [top]
    becomes [0px] and [bottom] becomes [innerHeight - (bottom - top)] px,
    whatever happens horizontally; [left] and [right] are left alone when
    the popup is inside the window horizontally. *)
Theorem top_overflow_pins_top (initialWidth : Q) (win : Window.t)
    (box : DOMRect.t) (style : gmap string CssLength) :
  (DOMRect.top box < 0)%Q ->
  let corrected := correctOverflow initialWidth win box style in
  corrected !! "top" = Some (Px 0)
  /\ corrected !! "bottom" =
     Some (Px (Window.innerHeight win - (DOMRect.bottom box - DOMRect.top box)))
  /\ ((0 <= DOMRect.left box)%Q -> (DOMRect.right box <= initialWidth)%Q ->
      corrected !! "left" = style !! "left"
      /\ corrected !! "right" = style !! "right").
Proof.
  intros Htop corrected. subst corrected. rewrite correctOverflow_split.
  apply Qltb_lt in Htop. unfold correctVertical. rewrite Htop.
  split; [|split].
  - rewrite lookup_insert_ne by done. by rewrite lookup_insert_eq.
  - by rewrite lookup_insert_eq.
  - intros Hleft Hright. apply Qltb_ge in Hleft, Hright.
    rewrite !lookup_insert_ne by done.
    unfold correctHorizontal. by rewrite Hleft, Hright.
Qed.

Lemma top_overflow_pins_top_witness :
  let box := DOMRect.mk (-15) 25 100 300 in
  let style : gmap string CssLength :=
    {[ "bottom" := Px 575; "left" := Px 100 ]} in
  let corrected := correctOverflow 800 Scenario.win box style in
  corrected !! "top" = Some (Px 0)
  /\ corrected !! "bottom" = Some (Px (600 - (25 - -15)))
  /\ ((0 <= 100)%Q -> (300 <= 800)%Q ->
      corrected !! "left" = Some (Px 100) /\ corrected !! "right" = None).
Proof.
  intros box style.
  apply (top_overflow_pins_top 800 Scenario.win box style). reflexivity.
Defined.

(** X13: A popup that is inside the window on the left, on the right and at the
    top keeps its style wherever its bottom edge is, also far below the
    window: an overflow at the bottom is never corrected. *)
Theorem bottom_overflow_is_not_corrected (initialWidth : Q) (win : Window.t)
    (top left right : Q) (style : gmap string CssLength) :
  (0 <= left)%Q ->
  (right <= initialWidth)%Q ->
  (0 <= top)%Q ->
  forall bottom,
    postRenderEffect initialWidth win
      (Some (Overlay.mk (DOMRect.mk top bottom left right) style))
    = Some style.
Proof.
  intros Hl Hr Ht bottom. unfold postRenderEffect. simpl. f_equal.
  by apply correctOverflow_inside.
Qed.

Lemma bottom_overflow_is_not_corrected_witness :
  let style : gmap string CssLength := {[ "top" := Px 590; "left" := Px 100 ]} in
  (Window.innerHeight Scenario.win < 700)%Q
  /\ postRenderEffect 800 Scenario.win
       (Some (Overlay.mk (DOMRect.mk 590 700 100 300) style))
     = Some style.
Proof.
  intros style. split; [reflexivity|].
  apply (bottom_overflow_is_not_corrected 800 Scenario.win 590 100 300 style);
    vm_compute; discriminate.
Defined.

(** X14: The pass writes [left], [right], [top] and [bottom] only, and removes
    no entry: every other entry of the style is as before, and every key
    the style had it still has. *)
Theorem correction_writes_the_four_edges_only (initialWidth : Q)
    (win : Window.t) (box : DOMRect.t) (style : gmap string CssLength) :
  let corrected := correctOverflow initialWidth win box style in
  (forall k, k ∉ ["left"; "right"; "top"; "bottom"] ->
     corrected !! k = style !! k)
  /\ (forall k, is_Some (style !! k) -> is_Some (corrected !! k)).
Proof.
  intros corrected. subst corrected. rewrite correctOverflow_split. split.
  - intros k Hk. rewrite !not_elem_of_cons in Hk.
    destruct Hk as (?&?&?&?&_).
    rewrite correctVertical_horizontal_keys by done.
    by rewrite correctHorizontal_vertical_keys.
  - intros k Hk. unfold correctVertical, correctHorizontal.
    repeat case_match;
      repeat (rewrite lookup_insert; case_decide; [by eexists|]); done.
Qed.

(** X15: After one pass a popup that fits is on screen: for a popup no wider
    than the window width read at render time, in a window no wider than
    it was then, with margins that are not negative, the box measured for
    the corrected style has its left edge at or right of 0, its right edge
    within the initial width, and its top edge at or below 0. *)
Theorem corrected_popup_is_on_screen (initialWidth : Q) (win : Window.t)
    (m : Margins.t) (box box' : DOMRect.t) (style : gmap string CssLength) :
  (0 <= Margins.left m)%Q -> (0 <= Margins.right m)%Q ->
  (0 <= Margins.top m)%Q ->
  (DOMRect.right box - DOMRect.left box <= initialWidth)%Q ->
  (Window.innerWidth win <= initialWidth)%Q ->
  remeasured initialWidth win m box style box' ->
  (0 <= DOMRect.left box')%Q
  /\ (DOMRect.right box' <= initialWidth)%Q
  /\ (0 <= DOMRect.top box')%Q.
Proof.
  intros Hml Hmr Hmt Hwidth Hwin (Hplaced & Hx & Hy).
  destruct Hplaced as (Hleft & Hright & Htop & _).
  rewrite correctOverflow_split in Hleft, Hright, Htop.
  assert (Hh : (0 <= DOMRect.left box')%Q
               /\ (DOMRect.right box' <= initialWidth)%Q).
  { destruct (Qltb (DOMRect.left box) 0) eqn:Hl;
      [|destruct (Qltb initialWidth (DOMRect.right box)) eqn:Hr].
    - specialize (Hleft 0%Q).
      specialize
        (Hright (Window.innerWidth win - (DOMRect.right box - DOMRect.left box))%Q).
      rewrite correctVertical_horizontal_keys in Hleft, Hright by done.
      unfold correctHorizontal in Hleft, Hright. rewrite Hl in Hleft, Hright.
      rewrite lookup_insert_ne, lookup_insert_eq in Hleft by done.
      rewrite lookup_insert_eq in Hright.
      specialize (Hleft eq_refl). specialize (Hright eq_refl). lra.
    - specialize (Hleft (initialWidth - (DOMRect.right box - DOMRect.left box))%Q).
      specialize (Hright 0%Q).
      rewrite correctVertical_horizontal_keys in Hleft, Hright by done.
      unfold correctHorizontal in Hleft, Hright.
      rewrite Hl, Hr in Hleft, Hright.
      rewrite lookup_insert_eq in Hleft.
      rewrite lookup_insert_ne, lookup_insert_eq in Hright by done.
      specialize (Hleft eq_refl). specialize (Hright eq_refl). lra.
    - destruct (Hx eq_refl eq_refl) as [Hl' Hr'].
      apply Qltb_ge in Hl, Hr. lra. }
  destruct Hh as [Hl Hr]. repeat split; try done.
  destruct (Qltb (DOMRect.top box) 0) eqn:Ht.
  - specialize (Htop 0%Q). unfold correctVertical in Htop.
    rewrite Ht in Htop.
    rewrite lookup_insert_ne, lookup_insert_eq in Htop by done.
    specialize (Htop eq_refl). lra.
  - destruct (Hy eq_refl) as [Ht' _]. apply Qltb_ge in Ht. lra.
Qed.

Lemma corrected_popup_is_on_screen_witness :
  let win := Scenario.win in
  let m := Margins.mk 0 0 0 4 in
  let box := DOMRect.mk (-5) 15 720 820 in
  let style : gmap string CssLength := {[ "top" := Px (-5); "left" := Px 716 ]} in
  let box' := DOMRect.mk 0 20 704 800 in
  remeasured 800 win m box style box'
  /\ (0 <= DOMRect.left box')%Q
  /\ (DOMRect.right box' <= 800)%Q
  /\ (0 <= DOMRect.top box')%Q.
Proof.
  intros win m box style box'.
  assert (Hre : remeasured 800 win m box style box').
  { split; [|split].
    - repeat split; intros x Hx; vm_compute in Hx; try discriminate;
        injection Hx as <-; reflexivity.
    - intros _ Hr. vm_compute in Hr. discriminate.
    - intros Ht. vm_compute in Ht. discriminate. }
  split; [exact Hre|].
  apply (corrected_popup_is_on_screen 800 win m box box' style);
    [vm_compute; discriminate .. | exact Hre].
Defined.

(** ** Items, flows and the click handlers *)

(** X16: An item that [flowMap] does not know has no flow state, and so never
    shows, as long as no flow is stored under the key ["undefined"] (the key
    the missing flow id turns into). *)
Theorem unmapped_item_never_shows (props : HelpItemProperties.t)
    (ctx : SystemContext.t) (win : Window.t) (i : string) :
  HelpItemProperties.myId props = Some i ->
  SystemState.flowMap (SystemContext.systemState ctx) !! i = None ->
  SystemState.flows (SystemContext.systemState ctx) !! "undefined" = None ->
  fst (getItemState (Some i) (SystemContext.systemState ctx)) = None
  /\ exists targets, HelpItem props ctx win = Returns (Fragment, targets).
Proof.
  intros Hi Hmap Hflows.
  assert (Hfs : fst (getItemState (Some i) (SystemContext.systemState ctx)) = None).
  { unfold getItemState. case_match; [|done]. simpl. by rewrite Hmap. }
  split; [done|]. apply HelpItem_hidden.
  destruct (shouldRender props ctx) eqn:Hgate; [|done].
  apply shouldRender_true in Hgate as (i'&?&?&?&?&Hi'&_&_&_&_&Hst&_).
  simplify_eq. rewrite Hst in Hfs. done.
Qed.

Lemma unmapped_item_never_shows_witness :
  let props := Scenario.item "I3" None in
  let ctx := Scenario.ctx Scenario.targets0 Scenario.shown Scenario.shown in
  fst (getItemState (Some "I3") (SystemContext.systemState ctx)) = None
  /\ exists targets,
       HelpItem props ctx Scenario.win = Returns (Fragment, targets).
Proof.
  intros props ctx.
  apply (unmapped_item_never_shows props ctx Scenario.win "I3"); reflexivity.
Defined.

(** X17: Clicking the Skip/OK span of a popup that shows asks the controller to
    disable the popup's flow, once, and nothing else: the handler of a
    shown popup always has a flow state and never takes the warning branch. *)
Theorem dismissFlow_of_shown_popup_disables_its_flow
    (props : HelpItemProperties.t) (ctx : SystemContext.t) (win : Window.t) :
  renders props ctx win = true ->
  exists flowState,
    fst (getItemState (HelpItemProperties.myId props)
           (SystemContext.systemState ctx)) = Some flowState
    /\ FlowState.visible flowState = true
    /\ dismissFlowOf props ctx
       = Click.mk [CallEnableFlow (FlowState.id flowState) false] [].
Proof.
  intros Hr. rewrite renders_shouldRender in Hr.
  apply shouldRender_true in Hr as (i&?&?&fs&?&Hi&_&_&_&_&Hst&Hv&_).
  exists fs. unfold dismissFlowOf. rewrite Hi, Hst. done.
Qed.

Lemma dismissFlow_of_shown_popup_disables_its_flow_witness :
  let ctx := Scenario.ctx Scenario.targets0 Scenario.shown Scenario.shown in
  renders Scenario.I1 ctx Scenario.win = true
  /\ dismissFlowOf Scenario.I1 ctx = Click.mk [CallEnableFlow "F" false] [].
Proof.
  intros ctx. split; [reflexivity|].
  destruct (dismissFlow_of_shown_popup_disables_its_flow Scenario.I1 ctx
              Scenario.win eq_refl) as (fs & Hfs & _ & Hclick).
  injection Hfs as <-. exact Hclick.
Defined.

(** ** [HelpProvider] *)

Lemma afterDeliveries_snoc (deliveries : list AppApi.t) (apiObject : AppApi.t) :
  afterDeliveries (deliveries ++ [apiObject])
  = HelpProvider.provideControllerApi apiObject (afterDeliveries deliveries).
Proof. unfold afterDeliveries. by rewrite foldl_app. Qed.

(** X18: Whatever the controller has delivered so far, [HelpProvider] gives the
    application an API object that is not null: the placeholder before the
    first delivery, and afterwards the object delivered last. Its first
    child is rendered under the provider and all the others, in order, under
    the controller. *)
Theorem HelpProvider_provides_latest_api {A : Type} (children : list A)
    (deliveries : list AppApi.t) :
  let tree := renderHelpProvider children (afterDeliveries deliveries) in
  ProviderTree.apiProviderValue tree = Some (List.last deliveries placeholderApi)
  /\ ProviderTree.logged tree
     = [LogText "Help provider render:";
        LogApi (ProviderTree.apiProviderValue tree)]
  /\ (option_list (ProviderTree.apiProviderChild tree)
        ++ ProviderTree.helpControllerChildren tree)%list = children.
Proof.
  intros tree. subst tree. split; [|split].
  - unfold renderHelpProvider. destruct (splitChildren children). simpl.
    change (HelpProvider.controllerApi (afterDeliveries deliveries))
      with (HelpProvider.providedValue (afterDeliveries deliveries)).
    induction deliveries as [|apiObject deliveries _] using rev_ind; [done|].
    rewrite afterDeliveries_snoc. simpl. by rewrite last_last.
  - by destruct children.
  - by destruct children.
Qed.

(** X19: Registrations made through the placeholder, however many and for
    whatever targets and elements, never throw and never register anything;
    each one adds one line to the console. *)
Theorem placeholder_registrations_register_nothing
    (registrations : list (string * JsValue * JsValue)) (w : World.t) :
  exists w',
    registerAll (HelpProvider.providedValue HelpProvider.initial)
      registrations w = Returns (tt, w')
    /\ World.targets w' = World.targets w
    /\ length (World.console w')
       = (length (World.console w) + length registrations)%nat.
Proof.
  revert w. induction registrations as [|[[targetId ir] r] rest IH]; intros w.
  - exists w. simpl. repeat split; lia.
  - cbn [registerAll]. simpl.
    destruct (IH (World.mk (World.console w ++
                [[JsString "Info: registerTargtItrm called before initialised:";
                  ir; r]])%list (World.targets w))) as (w' & Hrun & Ht & Hc).
    exists w'. split; [exact Hrun|]. split; [exact Ht|].
    rewrite Hc. simpl. rewrite length_app. simpl. lia.
Qed.

(** ** Markers and classes over renders *)

(** X20: After a render of an item that highlights, has an id and has a target
    with an element, the item's marker is on the target exactly if the
    render returned the popup; and when it did, the target's element carries
    both highlight classes. *)
Theorem marker_tracks_last_render (props : HelpItemProperties.t)
    (ctx : SystemContext.t) (win : Window.t) (jsx : JSX)
    (targets : AppTargetsState.t) (i : string) (el : Element.t) :
  HelpItem props ctx win = Returns (jsx, targets) ->
  default true (HelpItemProperties.highlightTarget props) = true ->
  HelpItemProperties.myId props = Some i -> i <> "" ->
  targetRef
    (AppTargetsState.targetItems (SystemContext.appTargetsState ctx)
       !! HelpItemProperties.target props) = Some el ->
  exists t' el',
    AppTargetsState.targetItems targets !! HelpItemProperties.target props = Some t'
    /\ Target.ref t' = Some el'
    /\ (i ∈ Target.highlighters t' <-> jsx <> Fragment)
    /\ (jsx <> Fragment -> highlightClasses ⊆ Element.classList el').
Proof.
  intros Hrun Hhl Hi Hne Href. unfold targetRef in Href.
  destruct (_ !! HelpItemProperties.target props) as [t|] eqn:Ht; [|done].
  simpl in Href. destruct (shouldRender props ctx) eqn:Hgate.
  - destruct (HelpItem_shown_full props ctx win Hgate)
      as (i'&t'&el'&?&?&Hi'&Ht'&Hel'&_&_&Hrun').
    rewrite Hrun', Hhl in Hrun. injection Hrun as <- <-. simplify_eq.
    eexists _, _. rewrite setTarget_lookup. split; [done|]. split; [done|].
    simpl. split.
    + split; [done|]. intros _. apply elem_of_union_r, elem_of_singleton. done.
    + intros _. apply union_subseteq_r.
  - rewrite (HelpItem_hidden_unhighlights props ctx win i t el Hgate Hi Hne
               Hhl Ht Href) in Hrun.
    injection Hrun as <- <-.
    destruct (removeHighlight_ref i t el Href) as (el'&Hel'&_&Hout).
    eexists _, _. rewrite setTarget_lookup. split; [done|]. split; [done|].
    split; [split; done|done].
Qed.

Lemma marker_tracks_last_render_witness :
  let ctx := Scenario.ctx Scenario.targets0 Scenario.shown Scenario.shown in
  exists jsx targets t' el',
    HelpItem Scenario.I1 ctx Scenario.win = Returns (jsx, targets)
    /\ AppTargetsState.targetItems targets !! "T" = Some t'
    /\ Target.ref t' = Some el'
    /\ ("I1" ∈ Target.highlighters t' <-> jsx <> Fragment)
    /\ (jsx <> Fragment -> highlightClasses ⊆ Element.classList el').
Proof.
  intros ctx.
  destruct (HelpItem Scenario.I1 ctx Scenario.win) as [[jsx targets]|] eqn:Hrun;
    [|by vm_compute in Hrun].
  destruct (marker_tracks_last_render Scenario.I1 ctx Scenario.win jsx targets
              "I1" (Element.mk Scenario.box ∅) Hrun eq_refl eq_refl)
    as (t'&el'&H); [discriminate|reflexivity|].
  by exists jsx, targets, t', el'.
Defined.






(** X22: The kill switch and a hidden flow: with [systemEnabled] off no item
    shows, and with a flow's [visible] flag off none of the items mapped to
    that flow shows, whatever the item's own state and the flow's active
    index are. *)
Theorem switched_off_renders_nothing (props : HelpItemProperties.t)
    (ctx : SystemContext.t) (win : Window.t) :
  SystemState.systemEnabled (SystemContext.systemState ctx) = false
  \/ (exists i flowId flowState,
        HelpItemProperties.myId props = Some i
        /\ SystemState.flowMap (SystemContext.systemState ctx) !! i = Some flowId
        /\ SystemState.flows (SystemContext.systemState ctx) !! flowId
           = Some flowState
        /\ FlowState.visible flowState = false) ->
  exists targets, HelpItem props ctx win = Returns (Fragment, targets).
Proof.
  intros Hoff. apply HelpItem_hidden.
  destruct (shouldRender props ctx) eqn:Hgate; [|done].
  apply shouldRender_true in Hgate as (i&?&?&fs&?&Hi&Hne&_&_&_&Hst&Hv&_&Hsys).
  destruct Hoff as [Hoff|(i'&f&fs'&Hi'&Hmap&Hflow&Hv')]; [congruence|].
  simplify_eq. unfold getItemState in Hst.
  apply truthy_Some in Hne. rewrite Hne, Hmap in Hst. simpl in Hst.
  rewrite Hflow in Hst. simplify_eq. congruence.
Qed.

Lemma switched_off_renders_nothing_witness :
  let dismissed := FlowState.mk "F" true false ["I1"; "I2"] 0 in
  let systemState :=
    SystemState.mk true {[ "I1" := "F"; "I2" := "F" ]} {[ "F" := dismissed ]}
      {[ "I1" := Scenario.shown; "I2" := Scenario.shown ]} in
  let ctx := SystemContext.mk Scenario.targets0 systemState Scenario.api in
  (exists targets,
     HelpItem Scenario.I1 ctx Scenario.win = Returns (Fragment, targets))
  /\ (exists targets,
        HelpItem Scenario.I2 ctx Scenario.win = Returns (Fragment, targets)).
Proof.
  intros dismissed systemState ctx. split.
  - apply (switched_off_renders_nothing Scenario.I1 ctx Scenario.win).
    right. by exists "I1", "F", dismissed.
  - apply (switched_off_renders_nothing Scenario.I2 ctx Scenario.win).
    right. by exists "I2", "F", dismissed.
Defined.
